(** * OWSLib, [owslib/feature/__init__.py]: the WFS GetFeature request builders

    A shallow embedding of class [WebFeatureService_]:
    [getBBOXKVP], [create_post_request], [getSRS], [getGETGetFeatureRequest]
    and [getPOSTGetFeatureRequest], with the Python built-ins they rest on
    ([str], [int], [str.lower], [str.endswith], [str.join], [str.split],
    ordered [dict], [urllib.parse.urlencode]).

    Collaborators that live in other modules of the library ([owslib.crs.Crs],
    [owslib.feature.postrequest.PostRequest_2_0_0], the [contents] and
    [getOperationByName] members set up by the concrete service classes) are
    interfaces here: every theorem holds for all their implementations. *)

From Stdlib Require Import ZArith Ascii String DecimalString.
From stdpp Require Import base option list strings gmap.

Local Open Scope Z_scope.

(** ** Python values and exceptions *)

(** The values that flow through the builders untyped: tuple elements of a
    bounding box, values of a stored-query parameter mapping, arguments of a
    log record.  [VObj] is any other object (a float, say), carried with the
    text [str] gives for it. *)
Inductive pyval : Type :=
| VNone
| VStr (s : string)
| VInt (z : Z)
| VObj (text : string).

Inductive exn : Type :=
| StopIteration
| AttributeError
| KeyError
| IndexError
| TypeError
| ValueError
| UnboundLocalError
| OtherError (what : string).

(** A call either returns or raises. *)
Inductive res (A : Type) : Type :=
| Ok (a : A)
| Raise (e : exn).
Arguments Ok {A} a.
Arguments Raise {A} e.

Definition res_bind {A B} (m : res A) (f : A -> res B) : res B :=
  match m with
  | Ok a => f a
  | Raise e => Raise e
  end.

Notation "x <~ m ;; k" := (res_bind m (fun x => k))
  (at level 100, m at next level, right associativity).

Definition is_Ok {A} (r : res A) : bool :=
  match r with Ok _ => true | Raise _ => false end.

(** ** Strings

    A string is its sequence of bytes (UTF-8); on ASCII text the functions
    below are Python's. *)

(** [str(int)] *)
Definition str_int (z : Z) : string := NilZero.string_of_int (Z.to_int z).

(** [str(v)], which is also what ["%s" % v] prints. *)
Definition str (v : pyval) : string :=
  match v with
  | VNone => "None"
  | VStr s => s
  | VInt z => str_int z
  | VObj text => text
  end.

Definition is_upper (c : ascii) : bool :=
  let n := N_of_ascii c in ((65 <=? n) && (n <=? 90))%N.

Definition lower_ascii (c : ascii) : ascii :=
  if is_upper c then ascii_of_N (N_of_ascii c + 32) else c.

(** [s.lower()], on the ASCII letters. *)
Fixpoint lower (s : string) : string :=
  match s with
  | EmptyString => EmptyString
  | String c t => String (lower_ascii c) (lower t)
  end.

(** [s.endswith(suffix)] *)
Fixpoint endswith (s suffix : string) : bool :=
  String.eqb s suffix ||
  match s with
  | EmptyString => false
  | String _ t => endswith t suffix
  end.

(** [s[:-1]] *)
Fixpoint drop_last (s : string) : string :=
  match s with
  | EmptyString => EmptyString
  | String c EmptyString => EmptyString
  | String c t => String c (drop_last t)
  end.

(** [sep.join(l)] for a list of strings. *)
Definition join (sep : string) (l : list string) : string := String.concat sep l.

(** [s.split(".")[0]]: the text before the first dot. *)
Fixpoint before_dot (s : string) : string :=
  match s with
  | EmptyString => EmptyString
  | String c t => if Ascii.eqb c "." then EmptyString else String c (before_dot t)
  end.

Definition is_digit (c : ascii) : bool :=
  let n := N_of_ascii c in ((48 <=? n) && (n <=? 57))%N.

(** The white space [int] skips around an ASCII literal: tab, line feed,
    vertical tab, form feed, carriage return and space. *)
Definition is_space (c : ascii) : bool :=
  let n := N_of_ascii c in
  (((9 <=? n) && (n <=? 13)) || (n =? 32))%N.

Fixpoint lstrip (s : string) : string :=
  match s with
  | String c t => if is_space c then lstrip t else s
  | EmptyString => EmptyString
  end.

Fixpoint rstrip (s : string) : string :=
  match s with
  | EmptyString => EmptyString
  | String c t =>
      match rstrip t with
      | EmptyString => if is_space c then EmptyString else String c EmptyString
      | t' => String c t'
      end
  end.

(** Decimal digits, single underscores allowed between two digits. *)
Fixpoint int_digits (acc : Z) (after_digit : bool) (s : string) : option Z :=
  match s with
  | EmptyString => if after_digit then Some acc else None
  | String c t =>
      if is_digit c then
        int_digits (10 * acc + (Z.of_N (N_of_ascii c) - 48)) true t
      else if Ascii.eqb c "_" then
        (if after_digit then int_digits acc false t else None)
      else None
  end.

(** [int(s)] for ASCII text: surrounding white space, an optional sign,
    decimal digits; [ValueError] otherwise. *)
Definition int_ascii (s : string) : res Z :=
  let body := rstrip (lstrip s) in
  let signed :=
    match body with
    | String "-" t => option_map Z.opp (int_digits 0 false t)
    | String "+" t => int_digits 0 false t
    | _ => int_digits 0 false body
    end in
  match signed with
  | Some z => Ok z
  | None => Raise ValueError
  end.

Fixpoint is_ascii (s : string) : bool :=
  match s with
  | EmptyString => true
  | String c t => (N_of_ascii c <? 128)%N && is_ascii t
  end.

(** [int(s)] for text with a byte outside ASCII.  There Python also reads
    the decimal digits and the white space of other scripts, by the tables
    of the Unicode database; they are not part of this development, so the
    result is left to the interpreter. *)
Class PyInt : Type := {
  int_unicode : string -> res Z
}.

(** [int(s)] for a string.  The interpreter's limit on the number of digits
    of a conversion (4300 unless configured otherwise) is not modelled, here
    or in [str_int]. *)
Definition int `{PyInt} (s : string) : res Z :=
  if is_ascii s then int_ascii s else int_unicode s.

(** ** Truth values *)

Definition truthy_str (s : string) : bool := negb (String.eqb s "").
Definition truthy_list {A} (l : list A) : bool :=
  match l with [] => false | _ => true end.
Definition truthy_int (z : Z) : bool := negb (z =? 0).

(** An optional argument whose default is [None]. *)
Definition truthy_opt {A} (t : A -> bool) (o : option A) : bool :=
  match o with
  | Some a => t a
  | None => false
  end.

(** ** Ordered dictionaries with string keys *)

Definition dict (V : Type) : Type := list (string * V).

(** [d[k] = v]: an existing key keeps its place and takes the new value, a
    new key goes to the end. *)
Fixpoint dict_set {V} (d : dict V) (k : string) (v : V) : dict V :=
  match d with
  | [] => [(k, v)]
  | (k', v') :: rest =>
      if String.eqb k' k then (k', v) :: rest else (k', v') :: dict_set rest k v
  end.

(** [d.get(k)] as an option. *)
Fixpoint dict_lookup {V} (d : dict V) (k : string) : option V :=
  match d with
  | [] => None
  | (k', v) :: rest => if String.eqb k' k then Some v else dict_lookup rest k
  end.

(** [d.get(k)] for a dictionary of Python values: [None] for a missing key. *)
Definition dict_get (d : dict pyval) (k : string) : pyval :=
  match dict_lookup d k with
  | Some v => v
  | None => VNone
  end.

Definition dict_keys {V} (d : dict V) : list string := map fst d.

(** ** [urllib.parse.urlencode(query, doseq=True)] *)

Definition always_safe (c : ascii) : bool :=
  is_upper c || is_digit c ||
  (let n := N_of_ascii c in ((97 <=? n) && (n <=? 122))%N) ||
  Ascii.eqb c "_" || Ascii.eqb c "." || Ascii.eqb c "-" || Ascii.eqb c "~".

Definition hex_digit (n : N) : ascii :=
  if (n <? 10)%N then ascii_of_N (48 + n) else ascii_of_N (55 + n).

(** [quote_plus]: a space becomes [+], an unreserved character stays, every
    other byte becomes [%XX]. *)
Fixpoint quote_plus (s : string) : string :=
  match s with
  | EmptyString => EmptyString
  | String c t =>
      if always_safe c then String c (quote_plus t)
      else if Ascii.eqb c " " then String "+" (quote_plus t)
      else
        let n := N_of_ascii c in
        String "%" (String (hex_digit (n / 16)) (String (hex_digit (n mod 16)) (quote_plus t)))
  end.

(** A value of the query mapping: one Python value, or a sequence of them. *)
Inductive qvalue : Type :=
| One (v : pyval)
| Many (l : list pyval).

(** The [key=value] items of one entry: a sequence repeats the key. *)
Definition urlencode_item (kv : string * qvalue) : list string :=
  let k := quote_plus (fst kv) in
  match snd kv with
  | One v => [k +:+ "=" +:+ quote_plus (str v)]
  | Many l => map (fun elt => k +:+ "=" +:+ quote_plus (str elt)) l
  end.

Definition urlencode (query : dict qvalue) : string :=
  join "&" (concat (map urlencode_item query)).

(** ** Indexing and formatting *)

(** [l[i]] for a non-negative literal index. *)
Definition item {A} (l : list A) (i : nat) : res A :=
  match l !! i with
  | Some a => Ok a
  | None => Raise IndexError
  end.

(** ["%s,%s,%s,%s,%s" % (a, b, c, d, e)] *)
Definition format5 (a b c d e : pyval) : string :=
  str a +:+ "," +:+ str b +:+ "," +:+ str c +:+ "," +:+ str d +:+ "," +:+ str e.

(** [x in [..]] for strings. *)
Definition str_in (x : string) (l : list string) : bool :=
  existsb (String.eqb x) l.

(** The argument of an [if arg:] test when the test succeeds. *)
Definition given {A} (t : A -> bool) (o : option A) : option A :=
  match o with
  | Some a => if t a then Some a else None
  | None => None
  end.

(** ** The collaborators *)

(** [owslib.crs.Crs], as far as this module uses it: the constructor from an
    identifier, the attributes [id], [encoding] and [axisorder], the methods
    [getcode] and [getcodeurn], and [__eq__]. *)
Class CrsApi : Type := {
  Crs : Type;
  Crs_new : pyval -> res Crs;
  crs_id : Crs -> string;
  encoding : Crs -> string;
  axisorder : Crs -> string;
  getcode : Crs -> pyval;
  getcodeurn : Crs -> string;
  crs_eq : Crs -> Crs -> bool
}.

(** The methods this module calls on a POST request document. *)
Inductive post_call : Type :=
| create_query (typenames : string)
| set_featureid (featureid : list string)
| set_bbox (bbox : list pyval)
| set_filter (filter : string)
| set_maxfeatures (maxfeatures : Z)
| set_outputformat (outputFormat : string)
| set_startindex (startindex : Z)
| set_propertyname (propertyname : list string)
| set_sortby (sortby : list string).

(** [owslib.feature.postrequest.PostRequest_2_0_0]: a fresh document, the
    effect of each method on it (a method may raise), and [to_string]. *)
Class PostRequestApi : Type := {
  PostRequest : Type;
  PostRequest_2_0_0 : PostRequest;
  perform : post_call -> PostRequest -> res PostRequest;
  to_string : PostRequest -> res string
}.

(** What a call does besides returning: log records ([log.warning(msg, *args)],
    kept unformatted as [logging] keeps them) and the use of the POST request
    document. *)
Inductive event : Type :=
| Warning (msg : string) (args : list pyval)
| Constructed
| Called (c : post_call)
| Serialized.

(** The events so far, and the return value or the exception. *)
Definition M (A : Type) : Type := list event * res A.

Definition ret {A} (a : A) : M A := ([], Ok a).
Definition lift {A} (r : res A) : M A := ([], r).
Definition emit (ev : event) : M unit := ([ev], Ok tt).

Definition bind {A B} (m : M A) (f : A -> M B) : M B :=
  match m with
  | (evs, Ok a) => let (evs', r) := f a in (evs ++ evs', r)
  | (evs, Raise e) => (evs, Raise e)
  end.

Notation "x <- m ; k" := (bind m (fun x => k))
  (at level 100, m at next level, right associativity).
Notation "m ;; k" := (bind m (fun _ => k))
  (at level 100, right associativity).

Definition events {A} (m : M A) : list event := fst m.
Definition outcome {A} (m : M A) : res A := snd m.

(** [log.warning(msg, *args)] *)
Definition log_warning (msg : string) (args : list pyval) : M unit :=
  emit (Warning msg args).

(** An event that is a log record. *)
Definition is_warning (ev : event) : Prop :=
  exists msg args, ev = Warning msg args.

(** The three calls that select features. *)
Definition is_selector_call (ev : event) : bool :=
  match ev with
  | Called (set_featureid _) | Called (set_bbox _) | Called (set_filter _) => true
  | _ => false
  end.

(** [if c: body] *)
Definition when (c : bool) (body : M unit) : M unit :=
  if c then body else ret tt.

(** ** Arguments *)

(** [typename]: one name, or a list of names. *)
Inductive typename_arg : Type :=
| TName (s : string)
| TNames (l : list string).

Definition truthy_typename (t : typename_arg) : bool :=
  match t with
  | TName s => truthy_str s
  | TNames l => truthy_list l
  end.

(** [[typename] if isinstance(typename, str) else typename] *)
Definition typename_list (t : typename_arg) : list string :=
  match t with
  | TName s => [s]
  | TNames l => l
  end.

(** [typename[0]]: the first name of a list, the first character of a string. *)
Definition typename_first (typename : option typename_arg) : res string :=
  match typename with
  | None => Raise TypeError
  | Some (TName EmptyString) => Raise IndexError
  | Some (TName (String c _)) => Ok (String c EmptyString)
  | Some (TNames l) => item l 0
  end.

(** The keyword arguments of the two request builders, typed as their
    docstrings say; [None] is the default of each one but [method]. *)
Record GetFeatureArgs : Type := {
  arg_typename : option typename_arg;
  arg_filter : option string;
  arg_bbox : option (list pyval);
  arg_featureid : option (list string);
  arg_featureversion : option string;
  arg_propertyname : option (list string);
  arg_maxfeatures : option Z;
  arg_storedQueryID : option string;
  arg_storedQueryParams : option (dict qvalue);
  arg_outputFormat : option string;
  arg_method : string;
  arg_startindex : option Z;
  arg_sortby : option (list string)
}.

(** A call with every keyword argument left at its default. *)
Definition default_args (method : string) : GetFeatureArgs :=
  {| arg_typename := None; arg_filter := None; arg_bbox := None;
     arg_featureid := None; arg_featureversion := None;
     arg_propertyname := None; arg_maxfeatures := None;
     arg_storedQueryID := None; arg_storedQueryParams := None;
     arg_outputFormat := None; arg_method := method;
     arg_startindex := None; arg_sortby := None |}.

Definition with_typename (a : GetFeatureArgs) (t : option typename_arg) : GetFeatureArgs :=
  {| arg_typename := t; arg_filter := arg_filter a;
     arg_bbox := arg_bbox a; arg_featureid := arg_featureid a;
     arg_featureversion := arg_featureversion a;
     arg_propertyname := arg_propertyname a; arg_maxfeatures := arg_maxfeatures a;
     arg_storedQueryID := arg_storedQueryID a;
     arg_storedQueryParams := arg_storedQueryParams a;
     arg_outputFormat := arg_outputFormat a; arg_method := arg_method a;
     arg_startindex := arg_startindex a; arg_sortby := arg_sortby a |}.

Definition with_maxfeatures (a : GetFeatureArgs) (m : option Z) : GetFeatureArgs :=
  {| arg_typename := arg_typename a; arg_filter := arg_filter a;
     arg_bbox := arg_bbox a; arg_featureid := arg_featureid a;
     arg_featureversion := arg_featureversion a;
     arg_propertyname := arg_propertyname a; arg_maxfeatures := m;
     arg_storedQueryID := arg_storedQueryID a;
     arg_storedQueryParams := arg_storedQueryParams a;
     arg_outputFormat := arg_outputFormat a; arg_method := arg_method a;
     arg_startindex := arg_startindex a; arg_sortby := arg_sortby a |}.

Definition with_startindex (a : GetFeatureArgs) (s : option Z) : GetFeatureArgs :=
  {| arg_typename := arg_typename a; arg_filter := arg_filter a;
     arg_bbox := arg_bbox a; arg_featureid := arg_featureid a;
     arg_featureversion := arg_featureversion a;
     arg_propertyname := arg_propertyname a; arg_maxfeatures := arg_maxfeatures a;
     arg_storedQueryID := arg_storedQueryID a;
     arg_storedQueryParams := arg_storedQueryParams a;
     arg_outputFormat := arg_outputFormat a; arg_method := arg_method a;
     arg_startindex := s; arg_sortby := arg_sortby a |}.

(** ** class [WebFeatureService_] *)

Section WebFeatureService.
Context `{CrsApi} `{PostRequestApi} `{PyInt}.

(** An entry of [self.contents]. *)
Record ContentMetadata : Type := {
  crsOptions : list Crs
}.

(** What [getOperationByName] returns: [methods] is a list of dictionaries
    with the keys ["type"] and ["url"]. *)
Record OperationMetadata : Type := {
  methods : list (dict pyval)
}.

(** The members of [self] the methods read; the concrete service classes
    set them. *)
Record WebFeatureService_ : Type := {
  version : string;
  contents : gmap string ContentMetadata;
  getOperationByName : string -> res OperationMetadata
}.

(** [self.contents[typename]] *)
Definition contents_item (self : WebFeatureService_) (typename : string)
  : res ContentMetadata :=
  match contents self !! typename with
  | Some c => Ok c
  | None => Raise KeyError
  end.

(** Lines 35-42.  The reference system of a bounding box: its fifth element
    when it has five, the first option of the first feature type otherwise. *)
Definition bbox_srs (self : WebFeatureService_) (bbox : list pyval)
    (typename : option typename_arg) : res Crs :=
  if (length bbox =? 5)%nat then
    v <~ item bbox 4;;
    Crs_new v
  else
    t <~ typename_first typename;;
    c <~ contents_item self t;;
    item (crsOptions c) 0.

(** ["%s,%s,%s,%s,%s" % (bbox[i], bbox[j], bbox[k], bbox[l], code)] *)
Definition format_bbox (bbox : list pyval) (i j k l : nat) (code : pyval)
  : res string :=
  a <~ item bbox i;;
  b <~ item bbox j;;
  c <~ item bbox k;;
  d <~ item bbox l;;
  Ok (format5 a b c d code).

(** Lines 25-81. *)
Definition getBBOXKVP (self : WebFeatureService_) (bbox : list pyval)
    (typename : option typename_arg) : res string :=
  srs <~ bbox_srs self bbox typename;;
  if str_in (version self) ["1.1.0"; "2.0.0"] then
    if String.eqb (encoding srs) "urn" then
      if String.eqb (axisorder srs) "yx" then
        format_bbox bbox 1 0 3 2 (VStr (getcodeurn srs))
      else
        format_bbox bbox 0 1 2 3 (VStr (getcodeurn srs))
    else
      format_bbox bbox 0 1 2 3 (getcode srs)
  else
    format_bbox bbox 0 1 2 3 (getcode srs).


(** [srsname]: a [Crs] object, or the identifier of one. *)
Inductive srs_arg : Type :=
| SrsCrs (c : Crs)
| SrsName (v : pyval).

(** [options.index(srs)]: the first position whose entry equals [srs];
    [None] stands for [ValueError]. *)
Fixpoint crs_index (options : list Crs) (srs : Crs) : option nat :=
  match options with
  | [] => None
  | c :: rest => if crs_eq c srs then Some O else option_map S (crs_index rest srs)
  end.

Definition srs_warning : string :=
  "Requested srsName %r is not declared as being allowed for requested typename %r. Options are: %r.".

(** Lines 94-97: [srsname if isinstance(srsname, Crs) else Crs(srsname)] *)
Definition to_crs (srsname : srs_arg) : res Crs :=
  match srsname with
  | SrsCrs c => Ok c
  | SrsName v => Crs_new v
  end.

(** Lines 88-114.  [KeyError] from [self.contents[typename]] is not caught by
    [except ValueError]. *)
Definition getSRS (self : WebFeatureService_) (srsname : srs_arg)
    (typename : string) : M (option Crs) :=
  srs <- lift (to_crs srsname);
  c <- lift (contents_item self typename);
  match crs_index (crsOptions c) srs with
  | Some index =>
      found <- lift (item (crsOptions c) index);
      ret (Some found)
  | None =>
      let options := join ", " (map crs_id (crsOptions c)) in
      log_warning srs_warning [getcode srs; VStr typename; VStr options];;
      ret None
  end.

(** [m.get("type").lower() == method.lower()] *)
Definition method_matches (m : dict pyval) (method : string) : res bool :=
  match dict_get m "type" with
  | VStr t => Ok (String.eqb (lower t) (lower method))
  | _ => Raise AttributeError
  end.

(** Lines 167-173 and 275-281: [next(m.get("url") for m in methods if ...)] *)
Fixpoint next_url (methods : list (dict pyval)) (method : string) : res pyval :=
  match methods with
  | [] => Raise StopIteration
  | m :: rest =>
      hit <~ method_matches m method;;
      if hit then Ok (dict_get m "url") else next_url rest method
  end.

(** The endpoint both builders start from; [endswith] needs a string. *)
Definition endpoint (self : WebFeatureService_) (method : string) : res string :=
  op <~ getOperationByName self "GetFeature";;
  url <~ next_url (methods op) method;;
  match url with
  | VStr u => Ok u
  | _ => Raise AttributeError
  end.

(** [int(self.version.split(".")[0]) >= 2] *)
Definition major_ge_2 (self : WebFeatureService_) : res bool :=
  major <~ int (before_dot (version self));;
  Ok (2 <=? major)%Z.

Definition qstr (s : string) : qvalue := One (VStr s).

(** [for param in storedQueryParams: request[param] = storedQueryParams[param]] *)
Definition merge_params (request params : dict qvalue) : dict qvalue :=
  fold_left (fun r kv => dict_set r (fst kv) (snd kv)) params request.

(** [if arg: request[key] = text], for an argument that passed its test. *)
Definition set_if {A} (arg : option A) (key : string) (text : A -> string)
    (request : dict qvalue) : dict qvalue :=
  match arg with
  | Some x => dict_set request key (qstr (text x))
  | None => request
  end.

(** Lines 179-184: [if featureid: .. elif bbox: .. elif filter: ..] *)
Definition selector_param (self : WebFeatureService_) (a : GetFeatureArgs)
    (request : dict qvalue) : res (dict qvalue) :=
  match given truthy_list (arg_featureid a) with
  | Some featureid => Ok (dict_set request "featureid" (qstr (join "," featureid)))
  | None =>
      match given truthy_list (arg_bbox a) with
      | Some bbox =>
          kvp <~ getBBOXKVP self bbox (arg_typename a);;
          Ok (dict_set request "bbox" (qstr kvp))
      | None =>
          match given truthy_str (arg_filter a) with
          | Some filter => Ok (dict_set request "query" (qstr filter))
          | None => Ok request
          end
      end
  end.

(** Lines 185-192: [if typename: ..] *)
Definition typename_param (self : WebFeatureService_) (a : GetFeatureArgs)
    (request : dict qvalue) : res (dict qvalue) :=
  match given truthy_typename (arg_typename a) with
  | Some typename =>
      let typename := typename_list typename in
      v2 <~ major_ge_2 self;;
      if v2 then Ok (dict_set request "typenames" (qstr (join "," typename)))
      else Ok (dict_set request "typename" (qstr (join "," typename)))
  | None => Ok request
  end.

(** Lines 199-203: [if maxfeatures: ..] *)
Definition maxfeatures_param (self : WebFeatureService_) (a : GetFeatureArgs)
    (request : dict qvalue) : res (dict qvalue) :=
  match given truthy_int (arg_maxfeatures a) with
  | Some maxfeatures =>
      v2 <~ major_ge_2 self;;
      if v2 then Ok (dict_set request "count" (qstr (str_int maxfeatures)))
      else Ok (dict_set request "maxfeatures" (qstr (str_int maxfeatures)))
  | None => Ok request
  end.

(** Lines 206-209: [if storedQueryID: ..], with [storedQueryParams or {}]
    of line 165. *)
Definition stored_query_params (a : GetFeatureArgs) (request : dict qvalue)
  : dict qvalue :=
  let storedQueryParams :=
    match given truthy_list (arg_storedQueryParams a) with
    | Some params => params
    | None => []
    end in
  match given truthy_str (arg_storedQueryID a) with
  | Some storedQueryID =>
      merge_params (dict_set request "storedQuery_id" (qstr storedQueryID))
                   storedQueryParams
  | None => request
  end.

(** Lines 176-211.  The parameter mapping of the GET builder: the [if]
    blocks in the order of the source. *)
Definition get_request (self : WebFeatureService_) (a : GetFeatureArgs)
  : res (dict qvalue) :=
  let request :=
    [("service", qstr "WFS"); ("version", qstr (version self));
     ("request", qstr "GetFeature")] in
  request <~ selector_param self a request;;
  request <~ typename_param self a request;;
  let request :=
    set_if (given truthy_list (arg_propertyname a)) "propertyname" (join ",") request in
  let request :=
    set_if (given truthy_list (arg_sortby a)) "sortby" (join ",") request in
  let request :=
    set_if (given truthy_str (arg_featureversion a)) "featureversion" id request in
  request <~ maxfeatures_param self a request;;
  let request :=
    set_if (given truthy_int (arg_startindex a)) "startindex" str_int request in
  let request := stored_query_params a request in
  let request := set_if (arg_outputFormat a) "outputFormat" id request in
  Ok request.

(** The keys a stored query merges into the parameter mapping. *)
Definition stored_query_keys (a : GetFeatureArgs) : list string :=
  match given truthy_str (arg_storedQueryID a),
        given truthy_list (arg_storedQueryParams a) with
  | Some _, Some params => dict_keys params
  | _, _ => []
  end.

(** Lines 116-215. *)
Definition getGETGetFeatureRequest (self : WebFeatureService_)
    (a : GetFeatureArgs) : res string :=
  base_url <~ endpoint self (arg_method a);;
  let base_url := if endswith base_url "?" then base_url else base_url +:+ "?" in
  request <~ get_request self a;;
  let data := urlencode request in
  Ok (base_url +:+ data).

(** Lines 83-86.  A fresh document for version "2.0" or "2.0.0"; [None],
    the result of a function that ends without [return], for any other
    version. *)
Definition create_post_request (self : WebFeatureService_)
  : M (option PostRequest) :=
  if str_in (version self) ["2.0"; "2.0.0"] then
    emit Constructed;;
    ret (Some PostRequest_2_0_0)
  else ret None.

Definition featureversion_warning : string :=
  "Use of the featureversion argument is not yet implemented with the Post method".
Definition storedQueryID_warning : string :=
  "Use of the storedQueryID argument is not yet implemented with the Post method".
Definition storedQueryParams_warning : string :=
  "Use of the storedQueryParams argument is not yet implemented with the Post method".

(** [request.method(...)] on the document. *)
Definition call (c : post_call) (request : PostRequest) : M PostRequest :=
  emit (Called c);;
  lift (perform c request).

(** [request.method(...)] when [request] may be [None], and with an argument
    that may be an unbound local: the attribute is looked up before the
    argument is read. *)
Definition call_with (request : option PostRequest) {A} (arg : option A)
    (c : A -> post_call) : M PostRequest :=
  match request with
  | None => lift (Raise AttributeError)
  | Some request =>
      match arg with
      | None => lift (Raise UnboundLocalError)
      | Some x => call (c x) request
      end
  end.

(** Lines 296-301: [if featureid: .. elif bbox: .. elif filter: ..] of the
    POST builder. *)
Definition post_selector (a : GetFeatureArgs) (request : PostRequest)
  : M PostRequest :=
  match given truthy_list (arg_featureid a) with
  | Some featureid => call (set_featureid featureid) request
  | None =>
      match given truthy_list (arg_bbox a) with
      | Some bbox => call (set_bbox bbox) request
      | None =>
          match given truthy_str (arg_filter a) with
          | Some filter => call (set_filter filter) request
          | None => ret request
          end
      end
  end.

(** Lines 284-316: the POST builder once the endpoint is known.  Without a
    truthy [typename] the local [typenames] is never assigned. *)
Definition post_request (self : WebFeatureService_) (base_url : string)
    (a : GetFeatureArgs) : M (string * string) :=
  match given truthy_typename (arg_typename a), given truthy_str (arg_filter a) with
  | None, Some filter => ret (base_url, filter)
  | typename, _ =>
      let typenames := option_map (fun t => join "," (typename_list t)) typename in
      request <- create_post_request self;
      request <- call_with request typenames create_query;
      request <- post_selector a request;
      request <-
        match given truthy_int (arg_maxfeatures a) with
        | Some maxfeatures => call (set_maxfeatures maxfeatures) request
        | None => ret request
        end;
      request <-
        match given truthy_str (arg_outputFormat a) with
        | Some outputFormat => call (set_outputformat outputFormat) request
        | None => ret request
        end;
      request <-
        match given truthy_int (arg_startindex a) with
        | Some startindex => call (set_startindex startindex) request
        | None => ret request
        end;
      request <-
        match given truthy_list (arg_propertyname a) with
        | Some propertyname => call (set_propertyname propertyname) request
        | None => ret request
        end;
      request <-
        match given truthy_list (arg_sortby a) with
        | Some sortby => call (set_sortby sortby) request
        | None => ret request
        end;
      emit Serialized;;
      data <- lift (to_string request);
      ret (base_url, data)
  end.

(** Lines 267-273: the warnings for the arguments the POST builder does not
    encode. *)
Definition post_warnings (a : GetFeatureArgs) : M unit :=
  let featureversion := truthy_opt truthy_str (arg_featureversion a) in
  let storedQueryID := truthy_opt truthy_str (arg_storedQueryID a) in
  let storedQueryParams := truthy_opt truthy_list (arg_storedQueryParams a) in
  when (featureversion || storedQueryID || storedQueryParams)
    (when featureversion (log_warning featureversion_warning []);;
     when storedQueryID (log_warning storedQueryID_warning []);;
     when storedQueryParams (log_warning storedQueryParams_warning [])).

(** Lines 217-316. *)
Definition getPOSTGetFeatureRequest (self : WebFeatureService_)
    (a : GetFeatureArgs) : M (string * string) :=
  post_warnings a;;
  base_url <- lift (endpoint self (arg_method a));
  let base_url := if negb (endswith base_url "?") then base_url else drop_last base_url in
  post_request self base_url a.

End WebFeatureService.

(** ** A small implementation of the collaborators

    A few reference systems and a POST document that records the calls made
    on it.  They stand in for the library's own classes in the closed
    examples only; no theorem depends on them. *)

Record crs_entry : Type := {
  entry_id : string;
  entry_encoding : string;
  entry_axisorder : string;
  entry_code : string;
  entry_urn : string
}.

Definition wgs84_urn : crs_entry :=
  {| entry_id := "urn:ogc:def:crs:EPSG::4326"; entry_encoding := "urn";
     entry_axisorder := "yx"; entry_code := "EPSG:4326";
     entry_urn := "urn:ogc:def:crs:EPSG::4326" |}.

Definition wgs84_code : crs_entry :=
  {| entry_id := "EPSG:4326"; entry_encoding := "code";
     entry_axisorder := "yx"; entry_code := "EPSG:4326";
     entry_urn := "urn:ogc:def:crs:EPSG::4326" |}.

Definition mercator_urn : crs_entry :=
  {| entry_id := "urn:ogc:def:crs:EPSG::3857"; entry_encoding := "urn";
     entry_axisorder := "xy"; entry_code := "EPSG:3857";
     entry_urn := "urn:ogc:def:crs:EPSG::3857" |}.

Definition laea_code : crs_entry :=
  {| entry_id := "EPSG:3035"; entry_encoding := "code";
     entry_axisorder := "yx"; entry_code := "EPSG:3035";
     entry_urn := "urn:ogc:def:crs:EPSG::3035" |}.

Definition crs_table : list crs_entry :=
  [wgs84_urn; wgs84_code; mercator_urn; laea_code].

Definition crs_entry_new (v : pyval) : res crs_entry :=
  match v with
  | VStr s =>
      match List.find (fun e => String.eqb (entry_id e) s) crs_table with
      | Some e => Ok e
      | None => Raise ValueError
      end
  | _ => Raise AttributeError
  end.

#[local] Instance table_crs : CrsApi := {|
  Crs := crs_entry;
  Crs_new := crs_entry_new;
  crs_id := entry_id;
  encoding := entry_encoding;
  axisorder := entry_axisorder;
  getcode := fun e => VStr (entry_code e);
  getcodeurn := entry_urn;
  crs_eq := fun a b => String.eqb (entry_urn a) (entry_urn b)
|}.

(** A stand-in for the closed examples, whose versions are ASCII text and
    never reach it. *)
#[local] Instance ascii_int : PyInt := {|
  int_unicode := fun _ => Raise ValueError
|}.

Definition call_name (c : post_call) : string :=
  match c with
  | create_query _ => "create_query"
  | set_featureid _ => "set_featureid"
  | set_bbox _ => "set_bbox"
  | set_filter _ => "set_filter"
  | set_maxfeatures _ => "set_maxfeatures"
  | set_outputformat _ => "set_outputformat"
  | set_startindex _ => "set_startindex"
  | set_propertyname _ => "set_propertyname"
  | set_sortby _ => "set_sortby"
  end.

#[local] Instance recording_post : PostRequestApi := {|
  PostRequest := list post_call;
  PostRequest_2_0_0 := [];
  perform := fun c doc => Ok (doc ++ [c]);
  to_string := fun doc => Ok (join ";" (map call_name doc))
|}.

(** A service with one feature type and one endpoint per HTTP method. *)
Definition roads : ContentMetadata := {| crsOptions := [wgs84_code; mercator_urn] |}.

Definition example_operation : OperationMetadata :=
  {| methods := [ [("type", VStr "Get"); ("url", VStr "http://example.org/wfs")];
                  [("type", VStr "Post"); ("url", VStr "http://example.org/wfs?")] ] |}.

Definition example_service (v : string) : WebFeatureService_ :=
  {| version := v;
     contents := {[ "roads" := roads ]};
     getOperationByName := fun name =>
       if String.eqb name "GetFeature" then Ok example_operation else Raise KeyError |}.

(** The POST call that carries only a filter. *)
Definition filter_only_args : GetFeatureArgs :=
  {| arg_typename := None; arg_filter := Some "<Filter/>"; arg_bbox := None;
     arg_featureid := None; arg_featureversion := None;
     arg_propertyname := None; arg_maxfeatures := None;
     arg_storedQueryID := None; arg_storedQueryParams := None;
     arg_outputFormat := None; arg_method := "Post";
     arg_startindex := None; arg_sortby := None |}.

(** A feature-id query with a bounding box, for a stored query whose
    parameters carry a ["bbox"] key of their own. *)
Definition stored_bbox_args : GetFeatureArgs :=
  {| arg_typename := Some (TNames ["roads"]); arg_filter := None;
     arg_bbox := Some [VInt 1; VInt 2; VInt 3; VInt 4];
     arg_featureid := Some ["f1"]; arg_featureversion := None;
     arg_propertyname := None; arg_maxfeatures := None;
     arg_storedQueryID := Some "q";
     arg_storedQueryParams := Some [("bbox", One (VStr "0,0,1,1"))];
     arg_outputFormat := None; arg_method := "Get";
     arg_startindex := None; arg_sortby := None |}.

(** A feature-id query with a bounding box and a filter. *)
Definition three_selectors_args : GetFeatureArgs :=
  {| arg_typename := Some (TNames ["roads"]); arg_filter := Some "<Filter/>";
     arg_bbox := Some [VInt 1; VInt 2; VInt 3; VInt 4];
     arg_featureid := Some ["f1"; "f2"]; arg_featureversion := None;
     arg_propertyname := None; arg_maxfeatures := None;
     arg_storedQueryID := None; arg_storedQueryParams := None;
     arg_outputFormat := None; arg_method := "Get";
     arg_startindex := None; arg_sortby := None |}.

(** A query for roads, for a stored query whose parameters carry a
    ["typename"] key of their own. *)
Definition stored_typename_args : GetFeatureArgs :=
  {| arg_typename := Some (TNames ["roads"]); arg_filter := None;
     arg_bbox := None; arg_featureid := None; arg_featureversion := None;
     arg_propertyname := None; arg_maxfeatures := Some 50;
     arg_storedQueryID := Some "q";
     arg_storedQueryParams := Some [("typename", One (VStr "rivers"))];
     arg_outputFormat := None; arg_method := "Get";
     arg_startindex := None; arg_sortby := None |}.

(** A query with [maxfeatures=0] and [startindex=0], for a stored query whose
    parameters carry ["count"] and ["startindex"] keys of their own. *)
Definition stored_count_args : GetFeatureArgs :=
  {| arg_typename := Some (TNames ["roads"]); arg_filter := None;
     arg_bbox := None; arg_featureid := None; arg_featureversion := None;
     arg_propertyname := None; arg_maxfeatures := Some 0;
     arg_storedQueryID := Some "q";
     arg_storedQueryParams :=
       Some [("count", One (VInt 5)); ("startindex", One (VInt 10))];
     arg_outputFormat := None; arg_method := "Get";
     arg_startindex := Some 0; arg_sortby := None |}.

(** A query for roads with [maxfeatures=50]. *)
Definition fifty_roads_args : GetFeatureArgs :=
  with_maxfeatures (with_typename (default_args "Get") (Some (TNames ["roads"])))
    (Some 50).

(** ** More argument updates and example services *)

Definition with_bbox (a : GetFeatureArgs) (b : option (list pyval)) : GetFeatureArgs :=
  {| arg_typename := arg_typename a; arg_filter := arg_filter a;
     arg_bbox := b; arg_featureid := arg_featureid a;
     arg_featureversion := arg_featureversion a;
     arg_propertyname := arg_propertyname a; arg_maxfeatures := arg_maxfeatures a;
     arg_storedQueryID := arg_storedQueryID a;
     arg_storedQueryParams := arg_storedQueryParams a;
     arg_outputFormat := arg_outputFormat a; arg_method := arg_method a;
     arg_startindex := arg_startindex a; arg_sortby := arg_sortby a |}.

Definition with_filter (a : GetFeatureArgs) (f : option string) : GetFeatureArgs :=
  {| arg_typename := arg_typename a; arg_filter := f;
     arg_bbox := arg_bbox a; arg_featureid := arg_featureid a;
     arg_featureversion := arg_featureversion a;
     arg_propertyname := arg_propertyname a; arg_maxfeatures := arg_maxfeatures a;
     arg_storedQueryID := arg_storedQueryID a;
     arg_storedQueryParams := arg_storedQueryParams a;
     arg_outputFormat := arg_outputFormat a; arg_method := arg_method a;
     arg_startindex := arg_startindex a; arg_sortby := arg_sortby a |}.

Definition with_featureid (a : GetFeatureArgs) (ids : option (list string))
  : GetFeatureArgs :=
  {| arg_typename := arg_typename a; arg_filter := arg_filter a;
     arg_bbox := arg_bbox a; arg_featureid := ids;
     arg_featureversion := arg_featureversion a;
     arg_propertyname := arg_propertyname a; arg_maxfeatures := arg_maxfeatures a;
     arg_storedQueryID := arg_storedQueryID a;
     arg_storedQueryParams := arg_storedQueryParams a;
     arg_outputFormat := arg_outputFormat a; arg_method := arg_method a;
     arg_startindex := arg_startindex a; arg_sortby := arg_sortby a |}.

Definition with_featureversion (a : GetFeatureArgs) (v : option string)
  : GetFeatureArgs :=
  {| arg_typename := arg_typename a; arg_filter := arg_filter a;
     arg_bbox := arg_bbox a; arg_featureid := arg_featureid a;
     arg_featureversion := v;
     arg_propertyname := arg_propertyname a; arg_maxfeatures := arg_maxfeatures a;
     arg_storedQueryID := arg_storedQueryID a;
     arg_storedQueryParams := arg_storedQueryParams a;
     arg_outputFormat := arg_outputFormat a; arg_method := arg_method a;
     arg_startindex := arg_startindex a; arg_sortby := arg_sortby a |}.

Definition with_storedQueryID (a : GetFeatureArgs) (q : option string)
  : GetFeatureArgs :=
  {| arg_typename := arg_typename a; arg_filter := arg_filter a;
     arg_bbox := arg_bbox a; arg_featureid := arg_featureid a;
     arg_featureversion := arg_featureversion a;
     arg_propertyname := arg_propertyname a; arg_maxfeatures := arg_maxfeatures a;
     arg_storedQueryID := q;
     arg_storedQueryParams := arg_storedQueryParams a;
     arg_outputFormat := arg_outputFormat a; arg_method := arg_method a;
     arg_startindex := arg_startindex a; arg_sortby := arg_sortby a |}.

Definition with_storedQueryParams (a : GetFeatureArgs) (p : option (dict qvalue))
  : GetFeatureArgs :=
  {| arg_typename := arg_typename a; arg_filter := arg_filter a;
     arg_bbox := arg_bbox a; arg_featureid := arg_featureid a;
     arg_featureversion := arg_featureversion a;
     arg_propertyname := arg_propertyname a; arg_maxfeatures := arg_maxfeatures a;
     arg_storedQueryID := arg_storedQueryID a;
     arg_storedQueryParams := p;
     arg_outputFormat := arg_outputFormat a; arg_method := arg_method a;
     arg_startindex := arg_startindex a; arg_sortby := arg_sortby a |}.

Definition with_outputFormat (a : GetFeatureArgs) (f : option string)
  : GetFeatureArgs :=
  {| arg_typename := arg_typename a; arg_filter := arg_filter a;
     arg_bbox := arg_bbox a; arg_featureid := arg_featureid a;
     arg_featureversion := arg_featureversion a;
     arg_propertyname := arg_propertyname a; arg_maxfeatures := arg_maxfeatures a;
     arg_storedQueryID := arg_storedQueryID a;
     arg_storedQueryParams := arg_storedQueryParams a;
     arg_outputFormat := f; arg_method := arg_method a;
     arg_startindex := arg_startindex a; arg_sortby := arg_sortby a |}.

Definition with_method (a : GetFeatureArgs) (m : string) : GetFeatureArgs :=
  {| arg_typename := arg_typename a; arg_filter := arg_filter a;
     arg_bbox := arg_bbox a; arg_featureid := arg_featureid a;
     arg_featureversion := arg_featureversion a;
     arg_propertyname := arg_propertyname a; arg_maxfeatures := arg_maxfeatures a;
     arg_storedQueryID := arg_storedQueryID a;
     arg_storedQueryParams := arg_storedQueryParams a;
     arg_outputFormat := arg_outputFormat a; arg_method := m;
     arg_startindex := arg_startindex a; arg_sortby := arg_sortby a |}.

(** A feature type whose first option is a URN with axis order yx, and one
    without options. *)
Definition parcels : ContentMetadata := {| crsOptions := [wgs84_urn; wgs84_code] |}.
Definition bare : ContentMetadata := {| crsOptions := [] |}.

(** A service with three feature types. *)
Definition cadastre_service (v : string) : WebFeatureService_ :=
  {| version := v;
     contents := {[ "roads" := roads; "parcels" := parcels; "bare" := bare ]};
     getOperationByName := fun name =>
       if String.eqb name "GetFeature" then Ok example_operation else Raise KeyError |}.

(** A box query for roads, the feature type given as a string. *)
Definition roads_box_args : GetFeatureArgs :=
  with_bbox (with_typename (default_args "Get") (Some (TName "roads")))
    (Some [VInt 1; VInt 2; VInt 3; VInt 4]).

(** A service that has no GetFeature operation. *)
Definition no_operation_service (v : string) : WebFeatureService_ :=
  {| version := v;
     contents := ∅;
     getOperationByName := fun _ => Raise KeyError |}.

(** A method list whose Get entry has no URL, followed by an entry without a
    type. *)
Definition odd_operation : OperationMetadata :=
  {| methods := [ [("type", VStr "Post"); ("url", VStr "http://example.org/wfs")];
                  [("type", VStr "Get")];
                  [("url", VStr "http://example.org/other")] ] |}.

Definition odd_service (v : string) : WebFeatureService_ :=
  {| version := v;
     contents := {[ "roads" := roads ]};
     getOperationByName := fun name =>
       if String.eqb name "GetFeature" then Ok odd_operation else Raise KeyError |}.

(** A service whose method list is the Post entry alone. *)
Definition post_only_operation : OperationMetadata :=
  {| methods := [ [("type", VStr "Post"); ("url", VStr "http://example.org/wfs")] ] |}.

Definition post_only_service (v : string) : WebFeatureService_ :=
  {| version := v;
     contents := {[ "roads" := roads ]};
     getOperationByName := fun name =>
       if String.eqb name "GetFeature" then Ok post_only_operation
       else Raise KeyError |}.

(** [d'] has the keys of [d] first and in the same order, and repeats no key
    if [d] repeats none. *)
Definition extends {V} (d d' : dict V) : Prop :=
  (exists more, dict_keys d' = dict_keys d ++ more)
  /\ (NoDup (dict_keys d) -> NoDup (dict_keys d')).

(** A stored query whose parameters reuse the names of built-in ones. *)
Definition overriding_args : GetFeatureArgs :=
  {| arg_typename := Some (TNames ["roads"]); arg_filter := None;
     arg_bbox := None; arg_featureid := None; arg_featureversion := None;
     arg_propertyname := None; arg_maxfeatures := Some 50;
     arg_storedQueryID := Some "q";
     arg_storedQueryParams :=
       Some [("version", One (VStr "9.9")); ("ID", One (VStr "r1"));
             ("count", One (VInt 5))];
     arg_outputFormat := Some "json"; arg_method := "Get";
     arg_startindex := None; arg_sortby := None |}.

(** The arguments with the three that the POST builder does not encode left
    out. *)
Definition without_unencoded (a : GetFeatureArgs) : GetFeatureArgs :=
  with_featureversion (with_storedQueryID (with_storedQueryParams a None) None) None.

(** A POST call for roads with all three of them. *)
Definition warned_args : GetFeatureArgs :=
  {| arg_typename := Some (TNames ["roads"]); arg_filter := None;
     arg_bbox := None; arg_featureid := None; arg_featureversion := Some "2";
     arg_propertyname := None; arg_maxfeatures := None;
     arg_storedQueryID := Some "q";
     arg_storedQueryParams := Some [("ID", One (VStr "r1"))];
     arg_outputFormat := None; arg_method := "Post";
     arg_startindex := None; arg_sortby := None |}.

(** ** The calls of the POST builder as a list *)

(** The methods the POST builder calls on the document, in the order of
    lines 294-312, for the arguments that pass their test. *)
Definition post_calls (a : GetFeatureArgs) (typenames : string) : list post_call :=
  [create_query typenames]
  ++ option_list
       match given truthy_list (arg_featureid a) with
       | Some featureid => Some (set_featureid featureid)
       | None =>
           match given truthy_list (arg_bbox a) with
           | Some bbox => Some (set_bbox bbox)
           | None => option_map set_filter (given truthy_str (arg_filter a))
           end
       end
  ++ option_list (option_map set_maxfeatures (given truthy_int (arg_maxfeatures a)))
  ++ option_list (option_map set_outputformat (given truthy_str (arg_outputFormat a)))
  ++ option_list (option_map set_startindex (given truthy_int (arg_startindex a)))
  ++ option_list (option_map set_propertyname (given truthy_list (arg_propertyname a)))
  ++ option_list (option_map set_sortby (given truthy_list (arg_sortby a))).

(** The method calls among the events. *)
Fixpoint called (evs : list event) : list post_call :=
  match evs with
  | [] => []
  | Called c :: rest => c :: called rest
  | _ :: rest => called rest
  end.

(** A POST call with every optional document method. *)
Definition full_post_args : GetFeatureArgs :=
  {| arg_typename := Some (TNames ["roads"; "rivers"]); arg_filter := Some "<Filter/>";
     arg_bbox := Some [VInt 1; VInt 2; VInt 3; VInt 4];
     arg_featureid := None; arg_featureversion := None;
     arg_propertyname := Some ["name"]; arg_maxfeatures := Some 50;
     arg_storedQueryID := None; arg_storedQueryParams := None;
     arg_outputFormat := Some "json"; arg_method := "Post";
     arg_startindex := Some 10; arg_sortby := Some ["name"] |}.

(** A POST call with a featureid alone. *)
Definition featureid_only_args : GetFeatureArgs :=
  with_featureid (default_args "Post") (Some ["f1"]).

(** Call the methods one after the other; the first that raises ends it. *)
Fixpoint run_calls `{PostRequestApi} (cs : list post_call) (request : PostRequest)
  : M PostRequest :=
  match cs with
  | [] => ret request
  | c :: rest =>
      request <- call c request;
      run_calls rest request
  end.

(** ** The characters of an encoded query *)

(** An unreserved character, or one of [+ % = &]. *)
Definition query_char (c : ascii) : bool :=
  always_safe c || Ascii.eqb c "+" || Ascii.eqb c "%" || Ascii.eqb c "="
  || Ascii.eqb c "&".

(** A filter query whose values need quoting. *)
Definition quoted_args : GetFeatureArgs :=
  {| arg_typename := Some (TNames ["ns:roads"; "ns:rivers"]);
     arg_filter := Some "<Filter a='1'/> & more?";
     arg_bbox := None; arg_featureid := None; arg_featureversion := None;
     arg_propertyname := Some ["the name"]; arg_maxfeatures := None;
     arg_storedQueryID := None; arg_storedQueryParams := None;
     arg_outputFormat := Some "text/xml; subtype=gml/3.1.1"; arg_method := "Get";
     arg_startindex := None; arg_sortby := None |}.

(** A query with every pass-through parameter. *)
Definition paged_args : GetFeatureArgs :=
  {| arg_typename := Some (TNames ["roads"]); arg_filter := None;
     arg_bbox := None; arg_featureid := None; arg_featureversion := Some "3";
     arg_propertyname := Some ["name"; "width"]; arg_maxfeatures := None;
     arg_storedQueryID := Some "q"; arg_storedQueryParams := None;
     arg_outputFormat := None; arg_method := "Get";
     arg_startindex := Some 20; arg_sortby := Some ["name"] |}.

(** ** The interpreter's limit on conversions *)




(** * Properties *)

(** ** Formatting a bounding box *)

Lemma format5_join (a b c d e : pyval) :
  format5 a b c d e = join "," [str a; str b; str c; str d; str e].
Proof.
  reflexivity.
Qed.

Lemma str_in_spec (x : string) (l : list string) :
  str_in x l = true <-> x ∈ l.
Proof.
  unfold str_in. rewrite existsb_exists. split.
  - intros (y & Hy & Heq). apply String.eqb_eq in Heq. subst.
    by apply list_elem_of_In.
  - intros Hx. exists x. split; [by apply list_elem_of_In | apply String.eqb_refl].
Qed.

Lemma bbox_srs_explicit `{CrsApi} (self : WebFeatureService_)
    (a b c d crs : pyval) (typename : option typename_arg) :
  bbox_srs self [a; b; c; d; crs] typename = Crs_new crs.
Proof. reflexivity. Qed.

Lemma bbox_srs_default `{CrsApi} (self : WebFeatureService_)
    (a b c d : pyval) (typename : option typename_arg) (t : string)
    (ft : ContentMetadata) (srs : Crs) (others : list Crs) :
  typename_first typename = Ok t ->
  contents self !! t = Some ft ->
  crsOptions ft = srs :: others ->
  bbox_srs self [a; b; c; d] typename = Ok srs.
Proof.
  intros Ht Hc Ho. unfold bbox_srs, contents_item. cbn.
  rewrite Ht. cbn. rewrite Hc. cbn. rewrite Ho. reflexivity.
Qed.

(** C1. A five-element bounding box under version "1.1.0" or "2.0.0", whose
    fifth element builds the reference system [srs]: with encoding "urn" and
    axis order "yx" the result is the five comma-joined tokens miny, minx,
    maxy, maxx and the URN form of the code; with encoding "urn" and another
    axis order it is minx, miny, maxx, maxy and the URN form; with another
    encoding it is minx, miny, maxx, maxy and the plain code. *)
Theorem getBBOXKVP_explicit_crs `{CrsApi} (self : WebFeatureService_)
    (minx miny maxx maxy crs : pyval) (typename : option typename_arg)
    (srs : Crs) :
  version self = "1.1.0" \/ version self = "2.0.0" ->
  Crs_new crs = Ok srs ->
  let result := getBBOXKVP self [minx; miny; maxx; maxy; crs] typename in
  (encoding srs = "urn" -> axisorder srs = "yx" ->
     result = Ok (join "," [str miny; str minx; str maxy; str maxx; getcodeurn srs]))
  /\ (encoding srs = "urn" -> axisorder srs <> "yx" ->
     result = Ok (join "," [str minx; str miny; str maxx; str maxy; getcodeurn srs]))
  /\ (encoding srs <> "urn" ->
     result = Ok (join "," [str minx; str miny; str maxx; str maxy; str (getcode srs)])).
Proof.
  intros Hv Hsrs result. subst result. unfold getBBOXKVP.
  rewrite bbox_srs_explicit, Hsrs. cbn [res_bind].
  assert (Hin : str_in (version self) ["1.1.0"; "2.0.0"] = true).
  { apply str_in_spec. destruct Hv as [-> | ->]; set_solver. }
  rewrite Hin. repeat split.
  - intros He Ha. rewrite He, Ha. cbn. by rewrite format5_join.
  - intros He Ha. rewrite He. apply String.eqb_neq in Ha. rewrite Ha.
    cbn. by rewrite format5_join.
  - intros He. apply String.eqb_neq in He. rewrite He.
    cbn. by rewrite format5_join.
Qed.

Lemma getBBOXKVP_explicit_crs_witness :
  getBBOXKVP (example_service "1.1.0")
    [VInt 10; VInt 20; VInt 30; VInt 40; VStr "urn:ogc:def:crs:EPSG::4326"] None
  = Ok "20,10,40,30,urn:ogc:def:crs:EPSG::4326".
Proof.
  exact (proj1 (getBBOXKVP_explicit_crs (example_service "1.1.0")
                  (VInt 10) (VInt 20) (VInt 30) (VInt 40)
                  (VStr "urn:ogc:def:crs:EPSG::4326") None wgs84_urn
                  (or_introl eq_refl) eq_refl) eq_refl eq_refl).
Defined.

(** C9. Under version "1.0.0" a bounding box is formatted as minx, miny,
    maxx, maxy and the plain code of its reference system, whatever the
    encoding and the axis order of that system: both for a box whose fifth
    element names the system and for a four-element box, which takes the
    first option of the first feature type. *)
Theorem getBBOXKVP_version_1_0_0 `{CrsApi} (self : WebFeatureService_)
    (minx miny maxx maxy : pyval) (typename : option typename_arg) (srs : Crs) :
  version self = "1.0.0" ->
  (forall crs, Crs_new crs = Ok srs ->
     getBBOXKVP self [minx; miny; maxx; maxy; crs] typename
     = Ok (join "," [str minx; str miny; str maxx; str maxy; str (getcode srs)]))
  /\ (forall t ft others,
        typename_first typename = Ok t ->
        contents self !! t = Some ft ->
        crsOptions ft = srs :: others ->
        getBBOXKVP self [minx; miny; maxx; maxy] typename
        = Ok (join "," [str minx; str miny; str maxx; str maxy; str (getcode srs)])).
Proof.
  intros Hv. split.
  - intros crs Hsrs. unfold getBBOXKVP.
    rewrite bbox_srs_explicit, Hsrs, Hv. cbn. by rewrite format5_join.
  - intros t ft others Ht Hc Ho. unfold getBBOXKVP.
    rewrite (bbox_srs_default self _ _ _ _ _ _ _ _ _ Ht Hc Ho), Hv.
    cbn. by rewrite format5_join.
Qed.

Lemma getBBOXKVP_version_1_0_0_witness :
  getBBOXKVP (example_service "1.0.0")
    [VInt 10; VInt 20; VInt 30; VInt 40; VStr "urn:ogc:def:crs:EPSG::4326"] None
  = Ok "10,20,30,40,EPSG:4326"
  /\ getBBOXKVP (example_service "1.0.0")
       [VInt 10; VInt 20; VInt 30; VInt 40] (Some (TNames ["roads"]))
     = Ok "10,20,30,40,EPSG:4326".
Proof.
  pose proof (getBBOXKVP_version_1_0_0 (example_service "1.0.0")
                (VInt 10) (VInt 20) (VInt 30) (VInt 40)) as Hthm.
  split.
  - exact (proj1 (Hthm None wgs84_urn eq_refl)
             (VStr "urn:ogc:def:crs:EPSG::4326") eq_refl).
  - exact (proj2 (Hthm (Some (TNames ["roads"])) wgs84_code eq_refl)
             "roads" roads [mercator_urn] eq_refl eq_refl eq_refl).
Defined.

(** ** Events and outcomes *)

Lemma bind_lift_Ok {A B} (a : A) (f : A -> M B) : bind (lift (Ok a)) f = f a.
Proof. unfold bind, lift. by destruct (f a). Qed.

Lemma bind_lift_Raise {A B} (e : exn) (f : A -> M B) :
  bind (lift (Raise e)) f = ([], Raise e).
Proof. reflexivity. Qed.

Lemma bind_Ok {A B} (evs : list event) (a : A) (f : A -> M B) :
  bind (evs, Ok a) f = (evs ++ events (f a), outcome (f a)).
Proof. unfold bind, events, outcome. by destruct (f a). Qed.

Lemma bind_Raise {A B} (evs : list event) (e : exn) (f : A -> M B) :
  bind (evs, Raise e) f = (evs, Raise e).
Proof. reflexivity. Qed.

Lemma M_eta {A} (m : M A) : m = (events m, outcome m).
Proof. by destruct m. Qed.

Lemma post_warnings_outcome (a : GetFeatureArgs) : outcome (post_warnings a) = Ok tt.
Proof.
  unfold post_warnings.
  destruct (truthy_opt truthy_str (arg_featureversion a)),
    (truthy_opt truthy_str (arg_storedQueryID a)),
    (truthy_opt truthy_list (arg_storedQueryParams a)); reflexivity.
Qed.

Lemma post_warnings_events (a : GetFeatureArgs) :
  Forall is_warning (events (post_warnings a)).
Proof.
  unfold post_warnings.
  destruct (truthy_opt truthy_str (arg_featureversion a)),
    (truthy_opt truthy_str (arg_storedQueryID a)),
    (truthy_opt truthy_list (arg_storedQueryParams a)); cbn;
    repeat constructor; unfold is_warning; eauto.
Qed.

Lemma post_warnings_eq (a : GetFeatureArgs) :
  post_warnings a = (events (post_warnings a), Ok tt).
Proof.
  pose proof (M_eta (post_warnings a)) as Heta.
  by rewrite post_warnings_outcome in Heta.
Qed.

Lemma given_None {A} (t : A -> bool) (o : option A) :
  truthy_opt t o = false -> given t o = None.
Proof. destruct o as [x|]; cbn; [|done]. by intros ->. Qed.

Lemma given_Some {A} (t : A -> bool) (o : option A) :
  truthy_opt t o = true -> exists x, o = Some x /\ given t o = Some x.
Proof. destruct o as [x|]; cbn; [|done]. intros ->. eauto. Qed.

(** ** Resolving the endpoint *)

Lemma next_url_first (before : list (dict pyval)) (m : dict pyval)
    (after : list (dict pyval)) (method : string) :
  Forall (fun m' => method_matches m' method = Ok false) before ->
  method_matches m method = Ok true ->
  next_url (before ++ m :: after) method = Ok (dict_get m "url").
Proof.
  intros Hbefore Hm. induction Hbefore as [|m' before Hm' _ IH]; cbn.
  - by rewrite Hm.
  - by rewrite Hm'.
Qed.

Lemma next_url_no_match (methods : list (dict pyval)) (method : string) :
  Forall (fun m => method_matches m method <> Ok true) methods ->
  exists e, next_url methods method = Raise e.
Proof.
  induction 1 as [|m methods Hm _ IH]; cbn; [by eexists|].
  destruct (method_matches m method) as [[]|e]; cbn; [done|done|by eexists].
Qed.

Lemma next_url_exhausted (methods : list (dict pyval)) (method : string) :
  Forall (fun m => method_matches m method = Ok false) methods ->
  next_url methods method = Raise StopIteration.
Proof.
  induction 1 as [|m methods Hm _ IH]; cbn; [done|]. by rewrite Hm.
Qed.

Lemma endpoint_first `{CrsApi} (self : WebFeatureService_) (method : string)
    (op : OperationMetadata) (before : list (dict pyval)) (m : dict pyval)
    (after : list (dict pyval)) (u : string) :
  getOperationByName self "GetFeature" = Ok op ->
  methods op = before ++ m :: after ->
  Forall (fun m' => method_matches m' method = Ok false) before ->
  method_matches m method = Ok true ->
  dict_get m "url" = VStr u ->
  endpoint self method = Ok u.
Proof.
  intros Hop Hms Hbefore Hm Hu. unfold endpoint. rewrite Hop. cbn.
  rewrite Hms, (next_url_first _ _ _ _ Hbefore Hm), Hu. reflexivity.
Qed.

Lemma append_cons (c : ascii) (s t : string) :
  String c s +:+ t = String c (s +:+ t).
Proof. reflexivity. Qed.

Lemma endswith_drop_last (u : string) :
  endswith u "?" = true -> u = drop_last u +:+ "?".
Proof.
  induction u as [|c u IH]; [done|].
  destruct u as [|c' u'].
  - intros Hc. cbn in Hc.
    destruct (Ascii.eqb_spec c "?") as [->|]; [reflexivity | discriminate].
  - intros Hends. change (drop_last (String c (String c' u')))
      with (String c (drop_last (String c' u'))).
    rewrite append_cons. f_equal. apply IH.
    cbn [endswith] in Hends. apply orb_true_iff in Hends as [Heq|Hrest]; [|done].
    apply String.eqb_eq in Heq. discriminate.
Qed.

Lemma post_request_url `{CrsApi} `{PostRequestApi} (self : WebFeatureService_)
    (base_url : string) (a : GetFeatureArgs) (url body : string) :
  outcome (post_request self base_url a) = Ok (url, body) -> url = base_url.
Proof.
  unfold post_request.
  destruct (given truthy_typename (arg_typename a)) as [t|],
    (given truthy_str (arg_filter a)) as [f|]; cbn [outcome ret snd];
    try (intros [= <- _]; reflexivity).
  all: repeat match goal with
  | |- outcome (bind ?m ?f) = _ -> _ =>
      let evs := fresh "evs" in let r := fresh "r" in
      destruct m as [evs [r|]];
      [rewrite bind_Ok; cbn [outcome snd] | rewrite bind_Raise; cbn; discriminate]
  end.
  all: cbn; by intros [= <- _].
Qed.

(** C3. At version "2.0.0", when the first entry of the GetFeature method
    list that matches "Get" (case-insensitively) has the URL
    "http://example.org/wfs", the GET builder called with typename=["roads"]
    and every other argument left at its default returns exactly
    "http://example.org/wfs?service=WFS&version=2.0.0&request=GetFeature&typenames=roads". *)
Theorem getGET_roads_exact `{CrsApi} {pyint : PyInt} (self : WebFeatureService_)
    (op : OperationMetadata) (before : list (dict pyval)) (m : dict pyval)
    (after : list (dict pyval)) :
  version self = "2.0.0" ->
  getOperationByName self "GetFeature" = Ok op ->
  methods op = before ++ m :: after ->
  Forall (fun m' => method_matches m' "Get" = Ok false) before ->
  method_matches m "Get" = Ok true ->
  dict_get m "url" = VStr "http://example.org/wfs" ->
  getGETGetFeatureRequest self
    (with_typename (default_args "Get") (Some (TNames ["roads"])))
  = Ok "http://example.org/wfs?service=WFS&version=2.0.0&request=GetFeature&typenames=roads".
Proof.
  intros Hv Hop Hms Hbefore Hm Hu. unfold getGETGetFeatureRequest.
  cbn [arg_method with_typename default_args].
  rewrite (endpoint_first self "Get" op before m after _ Hop Hms Hbefore Hm Hu).
  unfold get_request, selector_param, typename_param, maxfeatures_param,
    major_ge_2.
  rewrite Hv. reflexivity.
Qed.

Lemma getGET_roads_exact_witness :
  getGETGetFeatureRequest (example_service "2.0.0")
    (with_typename (default_args "Get") (Some (TNames ["roads"])))
  = Ok "http://example.org/wfs?service=WFS&version=2.0.0&request=GetFeature&typenames=roads".
Proof.
  exact (getGET_roads_exact (example_service "2.0.0") example_operation []
           [("type", VStr "Get"); ("url", VStr "http://example.org/wfs")]
           [[("type", VStr "Post"); ("url", VStr "http://example.org/wfs?")]]
           eq_refl eq_refl eq_refl (List.Forall_nil _) eq_refl eq_refl).
Defined.

(** C6. Both builders take the URL of the first entry of the GetFeature
    method list whose type equals the requested method when both are
    lower-cased: the GET builder appends the encoded parameters to it (with a
    "?" added when missing), the POST builder returns it (with a final "?"
    removed) as the first component of every result.  When no entry matches,
    both calls raise, the POST builder having produced nothing but its
    warnings; the exception is StopIteration when every entry has a type. *)
Theorem endpoint_resolution `{CrsApi} {pyint : PyInt} `{PostRequestApi}
    (self : WebFeatureService_) (a : GetFeatureArgs) (op : OperationMetadata) :
  getOperationByName self "GetFeature" = Ok op ->
  (forall before m after u,
      methods op = before ++ m :: after ->
      Forall (fun m' => method_matches m' (arg_method a) = Ok false) before ->
      method_matches m (arg_method a) = Ok true ->
      dict_get m "url" = VStr u ->
      getGETGetFeatureRequest self a
      = (request <~ get_request self a;;
         Ok ((if endswith u "?" then u else u +:+ "?") +:+ urlencode request))
      /\ getPOSTGetFeatureRequest self a
         = (post_warnings a;;
            post_request self (if endswith u "?" then drop_last u else u) a)
      /\ (forall url body,
            outcome (getPOSTGetFeatureRequest self a) = Ok (url, body) ->
            url = if endswith u "?" then drop_last u else u))
  /\ (Forall (fun m => method_matches m (arg_method a) <> Ok true) (methods op) ->
      exists e,
        getGETGetFeatureRequest self a = Raise e
        /\ getPOSTGetFeatureRequest self a = (events (post_warnings a), Raise e))
  /\ (Forall (fun m => method_matches m (arg_method a) = Ok false) (methods op) ->
      getGETGetFeatureRequest self a = Raise StopIteration
      /\ getPOSTGetFeatureRequest self a
         = (events (post_warnings a), Raise StopIteration)).
Proof.
  intros Hop. split; [|split].
  - intros before m after u Hms Hbefore Hm Hu.
    pose proof (endpoint_first self _ op before m after u Hop Hms Hbefore Hm Hu)
      as Hend.
    assert (Hpost : getPOSTGetFeatureRequest self a
              = (post_warnings a;;
                 post_request self (if endswith u "?" then drop_last u else u) a)).
    { unfold getPOSTGetFeatureRequest. rewrite Hend.
      f_equal. rewrite bind_lift_Ok. by destruct (endswith u "?"). }
    split; [|split].
    + unfold getGETGetFeatureRequest. by rewrite Hend.
    + exact Hpost.
    + intros url body. rewrite Hpost, post_warnings_eq, bind_Ok. cbn [outcome snd].
      apply post_request_url.
  - intros Hnone. unfold getGETGetFeatureRequest, getPOSTGetFeatureRequest, endpoint.
    rewrite Hop. cbn [res_bind].
    destruct (next_url_no_match _ _ Hnone) as [e He]. rewrite He. exists e.
    split; [reflexivity|].
    rewrite post_warnings_eq at 1. rewrite bind_Ok. cbn.
    by rewrite app_nil_r.
  - intros Hnone. unfold getGETGetFeatureRequest, getPOSTGetFeatureRequest, endpoint.
    rewrite Hop. cbn [res_bind]. rewrite (next_url_exhausted _ _ Hnone).
    split; [reflexivity|].
    rewrite post_warnings_eq at 1. rewrite bind_Ok. cbn.
    by rewrite app_nil_r.
Qed.

Lemma endpoint_resolution_witness :
  getGETGetFeatureRequest (example_service "2.0.0") (default_args "GET")
  = Ok "http://example.org/wfs?service=WFS&version=2.0.0&request=GetFeature"
  /\ getPOSTGetFeatureRequest (example_service "2.0.0") (default_args "PUT")
     = ([], Raise StopIteration).
Proof.
  split.
  - exact (proj1 (proj1 (endpoint_resolution (example_service "2.0.0")
                           (default_args "GET") example_operation eq_refl)
                    []
                    [("type", VStr "Get"); ("url", VStr "http://example.org/wfs")]
                    [[("type", VStr "Post"); ("url", VStr "http://example.org/wfs?")]]
                    "http://example.org/wfs"
                    eq_refl (List.Forall_nil _) eq_refl eq_refl)).
  - exact (proj2 (proj2 (proj2 (endpoint_resolution (example_service "2.0.0")
                                  (default_args "PUT") example_operation eq_refl))
                    ltac:(repeat constructor))).
Defined.

(** C7. A POST call without a feature-type list but with a filter, on a
    service whose endpoint resolves to [u]: the result is the pair of [u]
    without its final "?" and the filter itself, and nothing happens besides
    the warnings: no document is constructed, no method is called on one. *)
Theorem post_filter_only `{CrsApi} `{PostRequestApi}
    (self : WebFeatureService_) (a : GetFeatureArgs) (filter u : string) :
  truthy_opt truthy_typename (arg_typename a) = false ->
  arg_filter a = Some filter ->
  filter <> "" ->
  endpoint self (arg_method a) = Ok u ->
  exists url,
    getPOSTGetFeatureRequest self a = (events (post_warnings a), Ok (url, filter))
    /\ (if endswith u "?" then u = url +:+ "?" else url = u)
    /\ Forall is_warning (events (getPOSTGetFeatureRequest self a)).
Proof.
  intros Htn Hf Hne Hend.
  assert (Hgf : given truthy_str (arg_filter a) = Some filter).
  { rewrite Hf. cbn. unfold truthy_str.
    apply String.eqb_neq in Hne. by rewrite Hne. }
  assert (Hpost : forall url,
            url = (if negb (endswith u "?") then u else drop_last u) ->
            getPOSTGetFeatureRequest self a
            = (events (post_warnings a), Ok (url, filter))).
  { intros url ->. unfold getPOSTGetFeatureRequest. rewrite Hend.
    rewrite post_warnings_eq at 1. rewrite bind_Ok, bind_lift_Ok.
    unfold post_request. rewrite (given_None _ _ Htn), Hgf. cbn.
    by rewrite app_nil_r. }
  eexists. split; [by apply Hpost|]. split.
  - destruct (endswith u "?") eqn:Hends; cbn; [|done].
    by apply endswith_drop_last.
  - rewrite (Hpost _ eq_refl). apply post_warnings_events.
Qed.

Lemma post_filter_only_witness :
  exists url,
    getPOSTGetFeatureRequest (example_service "1.1.0") filter_only_args
    = ([], Ok (url, "<Filter/>"))
    /\ "http://example.org/wfs?" = url +:+ "?"
    /\ Forall is_warning
         (events (getPOSTGetFeatureRequest (example_service "1.1.0") filter_only_args)).
Proof.
  apply (post_filter_only (example_service "1.1.0") filter_only_args
           "<Filter/>" "http://example.org/wfs?");
    [reflexivity | reflexivity | discriminate | reflexivity].
Defined.

(** C8. For a version other than "2.0" and "2.0.0" there is no POST document
    ([create_post_request] returns None and constructs nothing), and a POST call with a feature-type
    list never returns a request: it raises, with AttributeError from the
    first use of the missing document when the endpoint resolved, and nothing
    has happened besides the warnings. *)
Theorem post_without_document `{CrsApi} `{PostRequestApi}
    (self : WebFeatureService_) :
  version self <> "2.0" ->
  version self <> "2.0.0" ->
  create_post_request self = ([], Ok None)
  /\ forall a,
       truthy_opt truthy_typename (arg_typename a) = true ->
       (forall u, endpoint self (arg_method a) = Ok u ->
          getPOSTGetFeatureRequest self a
          = (events (post_warnings a), Raise AttributeError))
       /\ is_Ok (outcome (getPOSTGetFeatureRequest self a)) = false
       /\ Forall is_warning (events (getPOSTGetFeatureRequest self a)).
Proof.
  intros Hv1 Hv2.
  assert (Hnone : create_post_request self = ([], Ok None)).
  { unfold create_post_request, str_in. cbn.
    apply String.eqb_neq in Hv1, Hv2. by rewrite Hv1, Hv2. }
  split; [exact Hnone|]. intros a Htn.
  destruct (given_Some _ _ Htn) as (t & _ & Hgt).
  assert (Hraise : forall base_url,
            post_request self base_url a = ([], Raise AttributeError)).
  { intros base_url. unfold post_request. rewrite Hgt, Hnone.
    by destruct (given truthy_str (arg_filter a)). }
  assert (Hpost : getPOSTGetFeatureRequest self a
            = (events (post_warnings a),
               match endpoint self (arg_method a) with
               | Ok _ => Raise AttributeError
               | Raise e => Raise e
               end)).
  { unfold getPOSTGetFeatureRequest.
    rewrite post_warnings_eq at 1. rewrite bind_Ok.
    destruct (endpoint self (arg_method a)) as [u|e].
    - rewrite bind_lift_Ok, Hraise. cbn. by rewrite app_nil_r.
    - rewrite bind_lift_Raise. cbn. by rewrite app_nil_r. }
  split; [|split].
  - intros u Hend. by rewrite Hpost, Hend.
  - rewrite Hpost. cbn. by destruct (endpoint self (arg_method a)).
  - rewrite Hpost. apply post_warnings_events.
Qed.

Lemma post_without_document_witness :
  create_post_request (example_service "1.1.0") = ([], Ok None)
  /\ getPOSTGetFeatureRequest (example_service "1.1.0")
       (with_typename (default_args "Post") (Some (TNames ["roads"])))
     = ([], Raise AttributeError).
Proof.
  pose proof (post_without_document (example_service "1.1.0")
                ltac:(discriminate) ltac:(discriminate)) as [Hnone Hcalls].
  split; [exact Hnone|].
  exact (proj1 (Hcalls (with_typename (default_args "Post") (Some (TNames ["roads"])))
                  eq_refl)
           "http://example.org/wfs?" eq_refl).
Defined.

(** ** Looking up a reference system *)

Lemma crs_index_Some `{CrsApi} (options : list Crs) (srs : Crs) (i : nat) :
  crs_index options srs = Some i ->
  exists entry,
    options !! i = Some entry
    /\ crs_eq entry srs = true
    /\ forall j c, (j < i)%nat -> options !! j = Some c -> crs_eq c srs = false.
Proof.
  revert i. induction options as [|c options IH]; intros i; cbn; [done|].
  destruct (crs_eq c srs) eqn:Hc.
  - intros [= <-]. exists c. repeat split; [done|]. intros j c' Hj. lia.
  - destruct (crs_index options srs) as [k|]; cbn; [|done].
    intros [= <-]. destruct (IH k eq_refl) as (entry & Hk & Heq & Hbefore).
    exists entry. repeat split; [done..|].
    intros [|j] c' Hj; cbn.
    + by intros [= <-].
    + apply Hbefore. lia.
Qed.

Lemma crs_index_None `{CrsApi} (options : list Crs) (srs : Crs) :
  crs_index options srs = None <->
  forall c, c ∈ options -> crs_eq c srs = false.
Proof.
  induction options as [|c options IH]; cbn.
  - split; [|done]. intros _ c Hc. by apply elem_of_nil in Hc.
  - destruct (crs_eq c srs) eqn:Hc.
    + split; [done|]. intros Hall. specialize (Hall c ltac:(left)). congruence.
    + destruct (crs_index options srs) as [k|]; cbn.
      * split; [done|]. intros Hall.
        assert (Some k = None) as Habs; [|done].
        apply IH. intros c' Hc'. apply Hall. by right.
      * split; [|done]. intros _ c' [->|Hc']%elem_of_cons; [done|].
        by apply IH.
Qed.

(** C5, as the code has it.  For a feature type of the capability metadata:
    getSRS raises exactly when the requested reference system cannot be
    built, that is when the Crs constructor rejects the identifier; the
    constructor's exception comes out and nothing is logged.  For a requested
    system [srs] that is a Crs object or was built from the identifier: when
    some declared option equals [srs], getSRS returns the first such option,
    the very entry of the server's list, and logs nothing; when no declared
    option equals it, getSRS returns None without raising, after one warning
    whose arguments name the requested code, the feature type and the
    comma-joined identifiers of the allowed options. *)
Theorem getSRS_declared_or_none `{CrsApi} (self : WebFeatureService_)
    (srsname : srs_arg) (typename : string) (ft : ContentMetadata) :
  contents self !! typename = Some ft ->
  is_Ok (outcome (getSRS self srsname typename)) = is_Ok (to_crs srsname)
  /\ (forall e, to_crs srsname = Raise e ->
        getSRS self srsname typename = ([], Raise e))
  /\ (forall srs, to_crs srsname = Ok srs ->
        ((exists c, c ∈ crsOptions ft /\ crs_eq c srs = true) ->
           exists i entry,
             crsOptions ft !! i = Some entry
             /\ crs_eq entry srs = true
             /\ (forall j c, (j < i)%nat -> crsOptions ft !! j = Some c ->
                   crs_eq c srs = false)
             /\ getSRS self srsname typename = ([], Ok (Some entry)))
        /\ ((forall c, c ∈ crsOptions ft -> crs_eq c srs = false) ->
            getSRS self srsname typename
            = ([Warning srs_warning
                  [getcode srs; VStr typename;
                   VStr (join ", " (map crs_id (crsOptions ft)))]],
               Ok None))).
Proof.
  intros Hft.
  assert (Hraise : forall e, to_crs srsname = Raise e ->
            getSRS self srsname typename = ([], Raise e)).
  { intros e He. unfold getSRS. by rewrite He. }
  assert (Hstart : forall srs, to_crs srsname = Ok srs ->
            getSRS self srsname typename
            = match crs_index (crsOptions ft) srs with
              | Some index =>
                  found <- lift (item (crsOptions ft) index);
                  ret (Some found)
              | None =>
                  log_warning srs_warning
                    [getcode srs; VStr typename;
                     VStr (join ", " (map crs_id (crsOptions ft)))];;
                  ret None
              end).
  { intros srs Hsrs. unfold getSRS, contents_item.
    rewrite Hsrs, bind_lift_Ok, Hft. by rewrite bind_lift_Ok. }
  split; [|split; [exact Hraise|]].
  - destruct (to_crs srsname) as [srs|e] eqn:Hsrs.
    + rewrite (Hstart srs eq_refl).
      destruct (crs_index (crsOptions ft) srs) as [i|] eqn:Hidx; [|reflexivity].
      destruct (crs_index_Some _ _ _ Hidx) as (entry & Hi & _).
      unfold item. by rewrite Hi.
    + by rewrite (Hraise e eq_refl).
  - intros srs Hsrs. split.
    + intros (c & Hin & Heq).
      destruct (crs_index (crsOptions ft) srs) as [i|] eqn:Hidx.
      * destruct (crs_index_Some _ _ _ Hidx) as (entry & Hi & Hentry & Hbefore).
        exists i, entry. split; [done|]. split; [done|]. split; [done|].
        rewrite (Hstart srs Hsrs), Hidx. unfold item. by rewrite Hi.
      * pose proof (proj1 (crs_index_None _ _) Hidx c Hin) as Hc.
        rewrite Hc in Heq. discriminate.
    + intros Hnone. rewrite (Hstart srs Hsrs), (proj2 (crs_index_None _ _) Hnone).
      reflexivity.
Qed.

Lemma getSRS_declared_or_none_witness :
  (exists i entry,
      crsOptions roads !! i = Some entry
      /\ @crs_eq table_crs entry wgs84_urn = true
      /\ (forall j c, (j < i)%nat -> crsOptions roads !! j = Some c ->
            @crs_eq table_crs c wgs84_urn = false)
      /\ getSRS (example_service "2.0.0")
           (SrsName (VStr "urn:ogc:def:crs:EPSG::4326")) "roads"
         = ([], Ok (Some entry)))
  /\ getSRS (example_service "2.0.0") (@SrsCrs table_crs laea_code) "roads"
     = ([Warning srs_warning
           [VStr "EPSG:3035"; VStr "roads";
            VStr "EPSG:4326, urn:ogc:def:crs:EPSG::3857"]],
        Ok None).
Proof.
  split.
  - apply (proj1 (proj2 (proj2 (getSRS_declared_or_none (example_service "2.0.0")
                    (SrsName (VStr "urn:ogc:def:crs:EPSG::4326")) "roads"
                    roads eq_refl)) wgs84_urn eq_refl)).
    exists wgs84_code. split; [left | reflexivity].
  - apply (proj2 (proj2 (proj2 (getSRS_declared_or_none (example_service "2.0.0")
                    (@SrsCrs table_crs laea_code) "roads" roads eq_refl))
                    laea_code eq_refl)).
    intros c Hc. cbn in Hc.
    apply elem_of_cons in Hc as [->|Hc]; [reflexivity|].
    apply elem_of_cons in Hc as [->|Hc]; [reflexivity|].
    by apply elem_of_nil in Hc.
Defined.

(** C5 fails as stated: "roads" is a feature type of the service, and asking
    for a reference system by an identifier the constructor rejects (a
    number, which has no [split]; a URI whose last segment is no integer)
    raises instead of returning None. *)
Lemma getSRS_declared_or_none_counterexample :
  is_Some (contents (example_service "2.0.0") !! "roads")
  /\ getSRS (example_service "2.0.0") (SrsName (VInt 4326)) "roads"
     = ([], Raise AttributeError)
  /\ getSRS (example_service "2.0.0")
       (SrsName (VStr "http://www.opengis.net/def/crs/EPSG/0/abc")) "roads"
     = ([], Raise ValueError).
Proof. split; [by eexists | split; reflexivity]. Qed.

(** ** The parameter mapping of the GET builder *)

Lemma dict_lookup_set {V} (d : dict V) (k : string) (v : V) (k' : string) :
  dict_lookup (dict_set d k v) k'
  = if String.eqb k k' then Some v else dict_lookup d k'.
Proof.
  induction d as [|[k0 v0] d IH]; cbn; [done|].
  destruct (String.eqb_spec k0 k) as [->|Hk0]; cbn.
  - by destruct (String.eqb k k').
  - rewrite IH. destruct (String.eqb_spec k0 k') as [->|]; [|done].
    apply String.eqb_neq in Hk0. rewrite String.eqb_sym in Hk0. by rewrite Hk0.
Qed.

Lemma dict_lookup_set_ne {V} (d : dict V) (k : string) (v : V) (k' : string) :
  k <> k' -> dict_lookup (dict_set d k v) k' = dict_lookup d k'.
Proof.
  intros Hne. rewrite dict_lookup_set. apply String.eqb_neq in Hne. by rewrite Hne.
Qed.

Lemma dict_lookup_set_eq {V} (d : dict V) (k : string) (v : V) :
  dict_lookup (dict_set d k v) k = Some v.
Proof. by rewrite dict_lookup_set, String.eqb_refl. Qed.

Lemma dict_lookup_merge (params request : dict qvalue) (k : string) :
  k ∉ dict_keys params ->
  dict_lookup (merge_params request params) k = dict_lookup request k.
Proof.
  unfold merge_params. revert request.
  induction params as [|[k0 v0] params IH]; intros request Hk; cbn; [done|].
  cbn in Hk. apply not_elem_of_cons in Hk as [Hne Hk].
  rewrite IH by done. by apply dict_lookup_set_ne.
Qed.

Lemma lookup_set_if_ne {A} (arg : option A) (key : string) (text : A -> string)
    (request : dict qvalue) (k : string) :
  key <> k -> dict_lookup (set_if arg key text request) k = dict_lookup request k.
Proof. intros Hne. destruct arg; cbn; [by apply dict_lookup_set_ne | done]. Qed.

Lemma lookup_stored_query (a : GetFeatureArgs) (request : dict qvalue) (k : string) :
  "storedQuery_id" <> k ->
  k ∉ stored_query_keys a ->
  dict_lookup (stored_query_params a request) k = dict_lookup request k.
Proof.
  unfold stored_query_params, stored_query_keys. intros Hne Hfree.
  destruct (given truthy_str (arg_storedQueryID a)); [|done].
  destruct (given truthy_list (arg_storedQueryParams a)).
  - rewrite dict_lookup_merge by done. by apply dict_lookup_set_ne.
  - cbn. by apply dict_lookup_set_ne.
Qed.

Lemma lookup_selector_ne `{CrsApi} (self : WebFeatureService_) (a : GetFeatureArgs)
    (r r' : dict qvalue) (k : string) :
  selector_param self a r = Ok r' ->
  k ∉ ["featureid"; "bbox"; "query"] ->
  dict_lookup r' k = dict_lookup r k.
Proof.
  unfold selector_param. intros Hstep Hk.
  apply not_elem_of_cons in Hk as [Hk1 Hk].
  apply not_elem_of_cons in Hk as [Hk2 Hk].
  apply not_elem_of_cons in Hk as [Hk3 _].
  destruct (given truthy_list (arg_featureid a)).
  { injection Hstep as <-. by apply dict_lookup_set_ne. }
  destruct (given truthy_list (arg_bbox a)).
  { destruct (getBBOXKVP self _ _); cbn in Hstep; [|done].
    injection Hstep as <-. by apply dict_lookup_set_ne. }
  destruct (given truthy_str (arg_filter a)); injection Hstep as <-; [|done].
  by apply dict_lookup_set_ne.
Qed.

Lemma lookup_typename_ne `{CrsApi} {pyint : PyInt} (self : WebFeatureService_) (a : GetFeatureArgs)
    (r r' : dict qvalue) (k : string) :
  typename_param self a r = Ok r' ->
  k ∉ ["typenames"; "typename"] ->
  dict_lookup r' k = dict_lookup r k.
Proof.
  unfold typename_param. intros Hstep Hk.
  apply not_elem_of_cons in Hk as [Hk1 Hk].
  apply not_elem_of_cons in Hk as [Hk2 _].
  destruct (given truthy_typename (arg_typename a)); [|by injection Hstep as <-].
  destruct (major_ge_2 self) as [[]|]; cbn in Hstep; [..|done];
    injection Hstep as <-; by apply dict_lookup_set_ne.
Qed.

Lemma lookup_maxfeatures_ne `{CrsApi} {pyint : PyInt} (self : WebFeatureService_) (a : GetFeatureArgs)
    (r r' : dict qvalue) (k : string) :
  maxfeatures_param self a r = Ok r' ->
  k ∉ ["count"; "maxfeatures"] ->
  dict_lookup r' k = dict_lookup r k.
Proof.
  unfold maxfeatures_param. intros Hstep Hk.
  apply not_elem_of_cons in Hk as [Hk1 Hk].
  apply not_elem_of_cons in Hk as [Hk2 _].
  destruct (given truthy_int (arg_maxfeatures a)); [|by injection Hstep as <-].
  destruct (major_ge_2 self) as [[]|]; cbn in Hstep; [..|done];
    injection Hstep as <-; by apply dict_lookup_set_ne.
Qed.

(** The mapping is what the blocks make of the three fixed parameters, one
    block after the other. *)
Lemma get_request_steps `{CrsApi} {pyint : PyInt} (self : WebFeatureService_) (a : GetFeatureArgs)
    (request : dict qvalue) :
  get_request self a = Ok request ->
  exists r1 r2 r3,
    selector_param self a
      [("service", qstr "WFS"); ("version", qstr (version self));
       ("request", qstr "GetFeature")] = Ok r1
    /\ typename_param self a r1 = Ok r2
    /\ maxfeatures_param self a
         (set_if (given truthy_str (arg_featureversion a)) "featureversion" id
            (set_if (given truthy_list (arg_sortby a)) "sortby" (join ",")
               (set_if (given truthy_list (arg_propertyname a)) "propertyname"
                  (join ",") r2))) = Ok r3
    /\ request
       = set_if (arg_outputFormat a) "outputFormat" id
           (stored_query_params a
              (set_if (given truthy_int (arg_startindex a)) "startindex"
                 str_int r3)).
Proof.
  unfold get_request. intros Hreq.
  destruct (selector_param self a _) as [r1|] eqn:H1; cbn in Hreq; [|done].
  destruct (typename_param self a r1) as [r2|] eqn:H2; cbn in Hreq; [|done].
  destruct (maxfeatures_param self a _) as [r3|] eqn:H3; cbn in Hreq; [|done].
  injection Hreq as <-. by exists r1, r2, r3.
Qed.

Ltac keys_differ :=
  rewrite ?not_elem_of_cons; repeat split; try discriminate; apply not_elem_of_nil.

(** Follow a key that the later blocks do not write back through them. *)
Ltac through H1 H2 H3 :=
  repeat first
    [ rewrite lookup_set_if_ne by discriminate
    | rewrite lookup_stored_query by (assumption || discriminate)
    | rewrite (lookup_maxfeatures_ne _ _ _ _ _ H3) by keys_differ
    | rewrite (lookup_typename_ne _ _ _ _ _ H2) by keys_differ
    | rewrite (lookup_selector_ne _ _ _ _ _ H1) by keys_differ ].

Lemma getGET_mapping `{CrsApi} {pyint : PyInt} (self : WebFeatureService_) (a : GetFeatureArgs)
    (url : string) :
  getGETGetFeatureRequest self a = Ok url ->
  exists base_url request,
    get_request self a = Ok request /\ url = base_url +:+ urlencode request.
Proof.
  unfold getGETGetFeatureRequest.
  destruct (endpoint self (arg_method a)) as [u|]; cbn; [|done].
  destruct (get_request self a) as [request|]; cbn; [|done].
  intros [= <-]. eauto.
Qed.

Lemma events_bind {A B} (m : M A) (f : A -> M B) :
  events (bind m f)
  = events m ++ match outcome m with
                | Ok x => events (f x)
                | Raise _ => []
                end.
Proof.
  destruct m as [evs [x|e]].
  - by rewrite bind_Ok.
  - rewrite bind_Raise. cbn. by rewrite app_nil_r.
Qed.

Lemma events_call `{PostRequestApi} (c : post_call) (request : PostRequest) :
  events (call c request) = [Called c].
Proof. unfold call. rewrite events_bind. cbn. by destruct (perform c request). Qed.

Lemma outcome_call `{PostRequestApi} (c : post_call) (request : PostRequest) :
  outcome (call c request) = perform c request.
Proof. unfold call, bind, emit, lift. reflexivity. Qed.

(** After the selector no selecting call is made. *)
Ltac no_selector_step :=
  rewrite events_bind, List.filter_app;
  match goal with
  | |- context [given ?t ?o] => destruct (given t o)
  end;
  rewrite ?events_call, ?outcome_call; cbn [events outcome ret fst snd List.filter
    is_selector_call app];
  try match goal with
  | |- context [perform ?c ?r] => destruct (perform c r); [|reflexivity]
  end.

Lemma post_tail_no_selector `{PostRequestApi} (a : GetFeatureArgs)
    (base_url : string) (request : PostRequest) :
  List.filter is_selector_call (events (
    request <-
      match given truthy_int (arg_maxfeatures a) with
      | Some maxfeatures => call (set_maxfeatures maxfeatures) request
      | None => ret request
      end;
    request <-
      match given truthy_str (arg_outputFormat a) with
      | Some outputFormat => call (set_outputformat outputFormat) request
      | None => ret request
      end;
    request <-
      match given truthy_int (arg_startindex a) with
      | Some startindex => call (set_startindex startindex) request
      | None => ret request
      end;
    request <-
      match given truthy_list (arg_propertyname a) with
      | Some propertyname => call (set_propertyname propertyname) request
      | None => ret request
      end;
    request <-
      match given truthy_list (arg_sortby a) with
      | Some sortby => call (set_sortby sortby) request
      | None => ret request
      end;
    emit Serialized;;
    data <- lift (to_string request);
    ret (base_url, data))) = [].
Proof.
  do 5 no_selector_step.
  all: rewrite events_bind; cbn; by destruct (to_string _).
Qed.
(** The selecting calls of a POST call, case by case. *)
Lemma post_selector_calls `{CrsApi} `{PostRequestApi}
    (self : WebFeatureService_) (a : GetFeatureArgs) :
  List.filter is_selector_call (events (getPOSTGetFeatureRequest self a))
  = match endpoint self (arg_method a),
          given truthy_typename (arg_typename a) with
    | Ok _, Some t =>
        if str_in (version self) ["2.0"; "2.0.0"] then
          match perform (create_query (join "," (typename_list t)))
                  PostRequest_2_0_0 with
          | Ok _ =>
              match given truthy_list (arg_featureid a),
                    given truthy_list (arg_bbox a),
                    given truthy_str (arg_filter a) with
              | Some featureid, _, _ => [Called (set_featureid featureid)]
              | None, Some bbox, _ => [Called (set_bbox bbox)]
              | None, None, Some filter => [Called (set_filter filter)]
              | None, None, None => []
              end
          | Raise _ => []
          end
        else []
    | _, _ => []
    end.
Proof.
  assert (Hwarn : List.filter is_selector_call (events (post_warnings a)) = []).
  { pose proof (post_warnings_events a) as Hall.
    induction Hall as [|ev evs (msg & args & ->) _ IH]; [done | exact IH]. }
  unfold getPOSTGetFeatureRequest.
  rewrite events_bind, List.filter_app, post_warnings_outcome, Hwarn. cbn [app].
  destruct (endpoint self (arg_method a)) as [u|e]; [|reflexivity].
  rewrite bind_lift_Ok. unfold post_request, create_post_request.
  destruct (given truthy_typename (arg_typename a)) as [t|].
  - destruct (str_in (version self) ["2.0"; "2.0.0"]).
    + assert (Hdoc : forall k : PostRequest -> M (string * string),
                (forall request,
                    List.filter is_selector_call (events (k request)) = []) ->
                List.filter is_selector_call (events (
                  request <- (emit Constructed;; ret (Some PostRequest_2_0_0));
                  request <- call_with request
                               (option_map (fun t => join "," (typename_list t))
                                  (Some t)) create_query;
                  request <- post_selector a request;
                  k request))
                = match perform (create_query (join "," (typename_list t)))
                          PostRequest_2_0_0 with
                  | Ok doc =>
                      List.filter is_selector_call (events (post_selector a doc))
                  | Raise _ => []
                  end).
      { intros k Hk. rewrite events_bind. cbn [option_map call_with outcome snd
          events fst emit ret bind app].
        rewrite events_bind, events_call, outcome_call.
        destruct (perform (create_query (join "," (typename_list t)))
                    PostRequest_2_0_0) as [doc|]; [|reflexivity].
        rewrite events_bind. cbn [app List.filter is_selector_call].
        rewrite List.filter_app.
        destruct (outcome (post_selector a doc)); [|by rewrite app_nil_r].
        by rewrite Hk, app_nil_r. }
      assert (Hsel : forall doc,
                List.filter is_selector_call (events (post_selector a doc))
                = match given truthy_list (arg_featureid a),
                            given truthy_list (arg_bbox a),
                            given truthy_str (arg_filter a) with
                      | Some featureid, _, _ => [Called (set_featureid featureid)]
                      | None, Some bbox, _ => [Called (set_bbox bbox)]
                      | None, None, Some filter => [Called (set_filter filter)]
                      | None, None, None => []
                      end).
      { intros doc. unfold post_selector.
        destruct (given truthy_list (arg_featureid a)),
          (given truthy_list (arg_bbox a)), (given truthy_str (arg_filter a));
          by rewrite ?events_call. }
      assert (Hgoal : forall k : PostRequest -> M (string * string),
                (forall request,
                    List.filter is_selector_call (events (k request)) = []) ->
                List.filter is_selector_call (events (
                  request <- (emit Constructed;; ret (Some PostRequest_2_0_0));
                  request <- call_with request
                               (option_map (fun t => join "," (typename_list t))
                                  (Some t)) create_query;
                  request <- post_selector a request;
                  k request))
                = match perform (create_query (join "," (typename_list t)))
                          PostRequest_2_0_0 with
                  | Ok _ =>
                      match given truthy_list (arg_featureid a),
                                given truthy_list (arg_bbox a),
                                given truthy_str (arg_filter a) with
                          | Some featureid, _, _ => [Called (set_featureid featureid)]
                          | None, Some bbox, _ => [Called (set_bbox bbox)]
                          | None, None, Some filter => [Called (set_filter filter)]
                          | None, None, None => []
                          end
                  | Raise _ => []
                  end).
      { intros k Hk. rewrite (Hdoc k Hk).
        destruct (perform _ _); [apply Hsel | reflexivity]. }
      destruct (given truthy_str (arg_filter a)) eqn:Hf;
        apply Hgoal; intros request; apply post_tail_no_selector.
    + by destruct (given truthy_str (arg_filter a)).
  - destruct (given truthy_str (arg_filter a)); [reflexivity|].
    by destruct (str_in (version self) ["2.0"; "2.0.0"]).
Qed.

(** C2, as the code has it.  In the GET builder the first of featureid, bbox
    and filter that is supplied is the one written to the parameter mapping
    (under "featureid", "bbox" and "query"), and the keys of the other two
    are absent, for every key that the merged stored-query parameters do not
    carry themselves; the URL is the endpoint followed by that mapping.  In
    the POST builder at most one of set_featureid, set_bbox and set_filter is
    called, and then it is the one of the first supplied selector: it is
    called whenever the document gets its query (endpoint found, version
    "2.0" or "2.0.0", a feature-type list given, create_query returning), and
    without a feature-type list none of the three is called: with a filter
    the call then returns the endpoint and the filter itself. *)
Theorem selector_priority `{CrsApi} {pyint : PyInt} `{PostRequestApi}
    (self : WebFeatureService_) (a : GetFeatureArgs) :
  let free k := k ∉ stored_query_keys a in
  let chosen :=
    match given truthy_list (arg_featureid a),
          given truthy_list (arg_bbox a),
          given truthy_str (arg_filter a) with
    | Some featureid, _, _ => [Called (set_featureid featureid)]
    | None, Some bbox, _ => [Called (set_bbox bbox)]
    | None, None, Some filter => [Called (set_filter filter)]
    | None, None, None => []
    end in
  let made :=
    List.filter is_selector_call (events (getPOSTGetFeatureRequest self a)) in
  (forall url, getGETGetFeatureRequest self a = Ok url ->
     exists base_url request,
       get_request self a = Ok request /\ url = base_url +:+ urlencode request)
  /\ (forall request, get_request self a = Ok request ->
     let absent k := free k -> dict_lookup request k = None in
     match given truthy_list (arg_featureid a),
           given truthy_list (arg_bbox a),
           given truthy_str (arg_filter a) with
     | Some featureid, _, _ =>
         (free "featureid" ->
            dict_lookup request "featureid" = Some (qstr (join "," featureid)))
         /\ absent "bbox" /\ absent "query"
     | None, Some bbox, _ =>
         (free "bbox" ->
            exists kvp, getBBOXKVP self bbox (arg_typename a) = Ok kvp
                        /\ dict_lookup request "bbox" = Some (qstr kvp))
         /\ absent "featureid" /\ absent "query"
     | None, None, Some filter =>
         (free "query" -> dict_lookup request "query" = Some (qstr filter))
         /\ absent "featureid" /\ absent "bbox"
     | None, None, None =>
         absent "featureid" /\ absent "bbox" /\ absent "query"
     end)
  /\ (made = [] \/ made = chosen)
  /\ (forall u t doc,
        endpoint self (arg_method a) = Ok u ->
        version self = "2.0" \/ version self = "2.0.0" ->
        given truthy_typename (arg_typename a) = Some t ->
        perform (create_query (join "," (typename_list t))) PostRequest_2_0_0
        = Ok doc ->
        made = chosen)
  /\ (truthy_opt truthy_typename (arg_typename a) = false ->
      made = []
      /\ forall u filter,
           endpoint self (arg_method a) = Ok u ->
           given truthy_str (arg_filter a) = Some filter ->
           outcome (getPOSTGetFeatureRequest self a)
           = Ok (if negb (endswith u "?") then u else drop_last u, filter)).
Proof.
  intros free chosen made. split; [|split; [|split; [|split]]].
  - apply getGET_mapping.
  - intros request (r1 & r2 & r3 & H1 & H2 & H3 & ->)%get_request_steps absent.
    subst absent free. cbn beta.
    assert (Hf : "featureid" ∉ stored_query_keys a ->
              dict_lookup (set_if (arg_outputFormat a) "outputFormat" id
                (stored_query_params a
                   (set_if (given truthy_int (arg_startindex a)) "startindex"
                      str_int r3))) "featureid" = dict_lookup r1 "featureid").
    { intros Hfree. by through H1 H2 H3. }
    assert (Hb : "bbox" ∉ stored_query_keys a ->
              dict_lookup (set_if (arg_outputFormat a) "outputFormat" id
                (stored_query_params a
                   (set_if (given truthy_int (arg_startindex a)) "startindex"
                      str_int r3))) "bbox" = dict_lookup r1 "bbox").
    { intros Hfree. by through H1 H2 H3. }
    assert (Hq : "query" ∉ stored_query_keys a ->
              dict_lookup (set_if (arg_outputFormat a) "outputFormat" id
                (stored_query_params a
                   (set_if (given truthy_int (arg_startindex a)) "startindex"
                      str_int r3))) "query" = dict_lookup r1 "query").
    { intros Hfree. by through H1 H2 H3. }
    clear H2 H3. unfold selector_param in H1.
    destruct (given truthy_list (arg_featureid a)) as [featureid|].
    { injection H1 as <-.
      repeat split; intros Hfree; rewrite ?Hf, ?Hb, ?Hq by done; reflexivity. }
    destruct (given truthy_list (arg_bbox a)) as [bbox|].
    { destruct (getBBOXKVP self bbox (arg_typename a)) as [kvp|]; cbn in H1;
        [|done].
      injection H1 as <-. split; [|split]; intros Hfree.
      - exists kvp. split; [done|]. by rewrite Hb.
      - by rewrite Hf.
      - by rewrite Hq. }
    destruct (given truthy_str (arg_filter a)) as [filter|]; injection H1 as <-;
      repeat split; intros Hfree; rewrite ?Hf, ?Hb, ?Hq by done; reflexivity.
  - subst made chosen. rewrite post_selector_calls.
    destruct (endpoint self (arg_method a)); [|by left].
    destruct (given truthy_typename (arg_typename a)); [|by left].
    destruct (str_in (version self) ["2.0"; "2.0.0"]); [|by left].
    destruct (perform _ _); [by right | by left].
  - intros u t doc Hend Hv Ht Hdoc. subst made chosen.
    rewrite post_selector_calls, Hend, Ht, Hdoc.
    assert (Hin : str_in (version self) ["2.0"; "2.0.0"] = true).
    { apply str_in_spec. destruct Hv as [-> | ->]; [left | right; left]. }
    by rewrite Hin.
  - intros Htn. split.
    + subst made. rewrite post_selector_calls, (given_None _ _ Htn).
      by destruct (endpoint self (arg_method a)).
    + intros u filter Hend Hf. unfold getPOSTGetFeatureRequest.
      rewrite post_warnings_eq, bind_Ok, Hend, bind_lift_Ok.
      unfold post_request. by rewrite (given_None _ _ Htn), Hf.
Qed.

Lemma selector_priority_witness :
  (exists request,
      get_request (example_service "2.0.0") three_selectors_args = Ok request
      /\ dict_lookup request "featureid" = Some (qstr "f1,f2")
      /\ dict_lookup request "bbox" = None
      /\ dict_lookup request "query" = None)
  /\ List.filter is_selector_call
       (events (getPOSTGetFeatureRequest (example_service "2.0.0")
                  three_selectors_args))
     = [Called (set_featureid ["f1"; "f2"])]
  /\ List.filter is_selector_call
       (events (getPOSTGetFeatureRequest (example_service "2.0.0")
                  (with_typename three_selectors_args None)))
     = []
  /\ outcome (getPOSTGetFeatureRequest (example_service "2.0.0")
                (with_typename three_selectors_args None))
     = Ok ("http://example.org/wfs", "<Filter/>").
Proof.
  pose proof (selector_priority (example_service "2.0.0") three_selectors_args)
    as (_ & Hget & _ & Hpost & _).
  pose proof (selector_priority (example_service "2.0.0")
                (with_typename three_selectors_args None))
    as (_ & _ & _ & _ & Hnone).
  split; [|split; [|split]].
  - eexists. split; [reflexivity|].
    destruct (Hget _ eq_refl) as (Hf & Hb & Hq).
    split; [|split]; [apply Hf | apply Hb | apply Hq]; apply not_elem_of_nil.
  - exact (Hpost "http://example.org/wfs" (TNames ["roads"])
             [create_query "roads"] eq_refl (or_intror eq_refl) eq_refl eq_refl).
  - exact (proj1 (Hnone eq_refl)).
  - exact (proj2 (Hnone eq_refl) "http://example.org/wfs" "<Filter/>"
             eq_refl eq_refl).
Defined.

(** C2 fails as stated: a call with both featureid and bbox, for a stored
    query whose parameters have a key "bbox", returns a URL with a featureid
    parameter and a bbox parameter. *)
Lemma selector_priority_counterexample :
  truthy_opt truthy_list (arg_featureid stored_bbox_args) = true
  /\ truthy_opt truthy_list (arg_bbox stored_bbox_args) = true
  /\ getGETGetFeatureRequest (example_service "2.0.0") stored_bbox_args
     = Ok "http://example.org/wfs?service=WFS&version=2.0.0&request=GetFeature&featureid=f1&typenames=roads&storedQuery_id=q&bbox=0%2C0%2C1%2C1"
  /\ exists request,
       get_request (example_service "2.0.0") stored_bbox_args = Ok request
       /\ dict_lookup request "featureid" = Some (qstr "f1")
       /\ dict_lookup request "bbox" = Some (qstr "0,0,1,1")
       /\ ~ (dict_lookup request "featureid" <> None
             /\ dict_lookup request "bbox" = None).
Proof.
  repeat split; try reflexivity.
  eexists. repeat split; try reflexivity. intros [_ Hbbox]. discriminate.
Qed.

Ltac key_cases Hk :=
  repeat (apply elem_of_cons in Hk as [->|Hk]); [.. | by apply elem_of_nil in Hk].

(** C4, as the code has it.  For a GET call that returns a URL, at a version
    whose first component reads as the integer [major]: the URL is the
    endpoint followed by the encoded mapping; the feature-type list is
    written under "typenames" and maxfeatures under "count" when
    [major >= 2], under "typename" and "maxfeatures" otherwise, and the
    builder does not write the other name of either; this holds for every
    key that the merged stored-query parameters do not carry themselves. *)
Theorem parameter_vocabulary `{CrsApi} {pyint : PyInt} (self : WebFeatureService_)
    (a : GetFeatureArgs) (major : Z) (url : string) :
  int (before_dot (version self)) = Ok major ->
  getGETGetFeatureRequest self a = Ok url ->
  let free k := k ∉ stored_query_keys a in
  let chosen (new old : string) := if (2 <=? major)%Z then new else old in
  let other (new old : string) := if (2 <=? major)%Z then old else new in
  exists base_url request,
    get_request self a = Ok request
    /\ url = base_url +:+ urlencode request
    /\ match given truthy_typename (arg_typename a) with
       | Some typename =>
           (free (chosen "typenames" "typename") ->
              dict_lookup request (chosen "typenames" "typename")
              = Some (qstr (join "," (typename_list typename))))
           /\ (free (other "typenames" "typename") ->
                 dict_lookup request (other "typenames" "typename") = None)
       | None =>
           (free "typenames" -> dict_lookup request "typenames" = None)
           /\ (free "typename" -> dict_lookup request "typename" = None)
       end
    /\ match given truthy_int (arg_maxfeatures a) with
       | Some maxfeatures =>
           (free (chosen "count" "maxfeatures") ->
              dict_lookup request (chosen "count" "maxfeatures")
              = Some (qstr (str_int maxfeatures)))
           /\ (free (other "count" "maxfeatures") ->
                 dict_lookup request (other "count" "maxfeatures") = None)
       | None =>
           (free "count" -> dict_lookup request "count" = None)
           /\ (free "maxfeatures" -> dict_lookup request "maxfeatures" = None)
       end.
Proof.
  intros Hmajor (base_url & request & Hreq & ->)%getGET_mapping free chosen other.
  exists base_url, request. split; [done|]. split; [done|].
  destruct (get_request_steps _ _ _ Hreq) as (r1 & r2 & r3 & H1 & H2 & H3 & Heq).
  assert (Hv2 : major_ge_2 self = Ok (2 <=? major)%Z).
  { unfold major_ge_2. by rewrite Hmajor. }
  assert (Htn : forall k, k ∈ ["typenames"; "typename"] -> free k ->
            dict_lookup request k = dict_lookup r2 k /\ dict_lookup r1 k = None).
  { intros k Hk Hfree. unfold free in Hfree. rewrite Heq.
    key_cases Hk; (split; [by through H1 H2 H3|]); by through H1 H2 H3. }
  assert (Hmf : forall k, k ∈ ["count"; "maxfeatures"] -> free k ->
            dict_lookup request k = dict_lookup r3 k
            /\ dict_lookup
                 (set_if (given truthy_str (arg_featureversion a))
                    "featureversion" id
                    (set_if (given truthy_list (arg_sortby a)) "sortby" (join ",")
                       (set_if (given truthy_list (arg_propertyname a))
                          "propertyname" (join ",") r2))) k = None).
  { intros k Hk Hfree. unfold free in Hfree. rewrite Heq.
    key_cases Hk; (split; [by through H1 H2 H3|]); by through H1 H2 H3. }
  clear Heq H1. split.
  - clear Hmf H3. unfold typename_param in H2. rewrite Hv2 in H2.
    destruct (given truthy_typename (arg_typename a)) as [typename|].
    + subst chosen other. cbn beta. cbn [res_bind] in H2.
      destruct (2 <=? major)%Z; injection H2 as <-; split; intros Hfree.
      * destruct (Htn "typenames") as [-> _]; [by left | done |].
        apply dict_lookup_set_eq.
      * destruct (Htn "typename") as [-> Hnone]; [by right; left | done |].
        by rewrite dict_lookup_set_ne.
      * destruct (Htn "typename") as [-> _]; [by right; left | done |].
        apply dict_lookup_set_eq.
      * destruct (Htn "typenames") as [-> Hnone]; [by left | done |].
        by rewrite dict_lookup_set_ne.
    + injection H2 as <-. split; intros Hfree.
      * by destruct (Htn "typenames") as [-> ->]; [by left | done |].
      * by destruct (Htn "typename") as [-> ->]; [by right; left | done |].
  - clear Htn H2. unfold maxfeatures_param in H3. rewrite Hv2 in H3.
    destruct (given truthy_int (arg_maxfeatures a)) as [maxfeatures|].
    + subst chosen other. cbn beta. cbn [res_bind] in H3.
      destruct (2 <=? major)%Z; injection H3 as <-; split; intros Hfree.
      * destruct (Hmf "count") as [-> _]; [by left | done |].
        apply dict_lookup_set_eq.
      * destruct (Hmf "maxfeatures") as [-> Hnone]; [by right; left | done |].
        by rewrite dict_lookup_set_ne.
      * destruct (Hmf "maxfeatures") as [-> _]; [by right; left | done |].
        apply dict_lookup_set_eq.
      * destruct (Hmf "count") as [-> Hnone]; [by left | done |].
        by rewrite dict_lookup_set_ne.
    + injection H3 as <-. split; intros Hfree.
      * by destruct (Hmf "count") as [-> ->]; [by left | done |].
      * by destruct (Hmf "maxfeatures") as [-> ->]; [by right; left | done |].
Qed.

Lemma parameter_vocabulary_witness :
  (exists base_url request,
      get_request (example_service "2.0.0") fifty_roads_args = Ok request
      /\ "http://example.org/wfs?service=WFS&version=2.0.0&request=GetFeature&typenames=roads&count=50"
         = base_url +:+ urlencode request
      /\ dict_lookup request "typenames" = Some (qstr "roads")
      /\ dict_lookup request "typename" = None
      /\ dict_lookup request "count" = Some (qstr "50")
      /\ dict_lookup request "maxfeatures" = None)
  /\ (exists base_url request,
        get_request (example_service "1.1.0") fifty_roads_args = Ok request
        /\ "http://example.org/wfs?service=WFS&version=1.1.0&request=GetFeature&typename=roads&maxfeatures=50"
           = base_url +:+ urlencode request
        /\ dict_lookup request "typename" = Some (qstr "roads")
        /\ dict_lookup request "typenames" = None
        /\ dict_lookup request "maxfeatures" = Some (qstr "50")
        /\ dict_lookup request "count" = None).
Proof.
  split.
  - destruct (parameter_vocabulary (example_service "2.0.0") fifty_roads_args 2
                "http://example.org/wfs?service=WFS&version=2.0.0&request=GetFeature&typenames=roads&count=50"
                eq_refl eq_refl)
      as (base_url & request & Hreq & Hurl & [Ht1 Ht2] & [Hm1 Hm2]).
    exists base_url, request.
    repeat split; [exact Hreq | exact Hurl | apply Ht1 | apply Ht2 | apply Hm1
                  | apply Hm2]; apply not_elem_of_nil.
  - destruct (parameter_vocabulary (example_service "1.1.0") fifty_roads_args 1
                "http://example.org/wfs?service=WFS&version=1.1.0&request=GetFeature&typename=roads&maxfeatures=50"
                eq_refl eq_refl)
      as (base_url & request & Hreq & Hurl & [Ht1 Ht2] & [Hm1 Hm2]).
    exists base_url, request.
    repeat split; [exact Hreq | exact Hurl | apply Ht1 | apply Ht2 | apply Hm1
                  | apply Hm2]; apply not_elem_of_nil.
Defined.

(** C4 fails as stated: at version "2.0.0" a call for roads, for a stored
    query whose parameters have a key "typename", returns a URL with both a
    typenames and a typename parameter. *)
Lemma parameter_vocabulary_counterexample :
  getGETGetFeatureRequest (example_service "2.0.0") stored_typename_args
  = Ok "http://example.org/wfs?service=WFS&version=2.0.0&request=GetFeature&typenames=roads&count=50&storedQuery_id=q&typename=rivers"
  /\ exists request,
       get_request (example_service "2.0.0") stored_typename_args = Ok request
       /\ dict_lookup request "typenames" = Some (qstr "roads")
       /\ dict_lookup request "typename" = Some (qstr "rivers")
       /\ ~ (dict_lookup request "typenames" = None
             \/ dict_lookup request "typename" = None).
Proof.
  split; [reflexivity|]. eexists. repeat split; try reflexivity.
  intros [Hnone | Hnone]; discriminate.
Qed.

(** C10, as the code has it.  The GET builder cannot tell maxfeatures=0 or
    startindex=0 from the argument left out: the result is the same, and the
    mapping has no "count", "maxfeatures" or "startindex" entry unless the
    merged stored-query parameters carry that key themselves. *)
Theorem zero_is_absent `{CrsApi} {pyint : PyInt} (self : WebFeatureService_) (a : GetFeatureArgs) :
  getGETGetFeatureRequest self (with_maxfeatures a (Some 0%Z))
  = getGETGetFeatureRequest self (with_maxfeatures a None)
  /\ getGETGetFeatureRequest self (with_startindex a (Some 0%Z))
     = getGETGetFeatureRequest self (with_startindex a None)
  /\ (forall request k,
        get_request self (with_maxfeatures a (Some 0%Z)) = Ok request ->
        k ∈ ["count"; "maxfeatures"] ->
        k ∉ stored_query_keys a ->
        dict_lookup request k = None)
  /\ (forall request,
        get_request self (with_startindex a (Some 0%Z)) = Ok request ->
        "startindex" ∉ stored_query_keys a ->
        dict_lookup request "startindex" = None).
Proof.
  split; [reflexivity|]. split; [reflexivity|]. split.
  - intros request k (r1 & r2 & r3 & H1 & H2 & H3 & ->)%get_request_steps Hk Hfree.
    change (stored_query_keys a)
      with (stored_query_keys (with_maxfeatures a (Some 0%Z))) in Hfree.
    unfold maxfeatures_param in H3. cbn [arg_maxfeatures with_maxfeatures given
      truthy_int Z.eqb negb] in H3. injection H3 as <-.
    key_cases Hk; by through H1 H2 H1.
  - intros request (r1 & r2 & r3 & H1 & H2 & H3 & ->)%get_request_steps Hfree.
    change (stored_query_keys a)
      with (stored_query_keys (with_startindex a (Some 0%Z))) in Hfree.
    rewrite lookup_set_if_ne, lookup_stored_query by (done || discriminate).
    cbn [arg_startindex with_startindex given truthy_int Z.eqb negb set_if].
    by through H1 H2 H3.
Qed.

Lemma zero_is_absent_witness :
  exists request,
    get_request (example_service "2.0.0")
      (with_maxfeatures (with_startindex fifty_roads_args (Some 0%Z)) (Some 0%Z))
    = Ok request
    /\ dict_lookup request "count" = None
    /\ dict_lookup request "maxfeatures" = None.
Proof.
  pose proof (zero_is_absent (example_service "2.0.0")
                (with_startindex fifty_roads_args (Some 0%Z)))
    as (_ & _ & Hmax & _).
  eexists. split; [reflexivity|].
  split; apply (Hmax _ _ eq_refl); try apply not_elem_of_nil.
  - left.
  - right; left.
Defined.

(** C10 fails as stated: a call with maxfeatures=0 and startindex=0, for a
    stored query whose parameters have the keys "count" and "startindex",
    returns a URL with a count and a startindex parameter. *)
Lemma zero_is_absent_counterexample :
  arg_maxfeatures stored_count_args = Some 0%Z
  /\ arg_startindex stored_count_args = Some 0%Z
  /\ getGETGetFeatureRequest (example_service "2.0.0") stored_count_args
     = Ok "http://example.org/wfs?service=WFS&version=2.0.0&request=GetFeature&typenames=roads&storedQuery_id=q&count=5&startindex=10"
  /\ exists request,
       get_request (example_service "2.0.0") stored_count_args = Ok request
       /\ dict_lookup request "count" = Some (One (VInt 5))
       /\ dict_lookup request "startindex" = Some (One (VInt 10))
       /\ ~ (dict_lookup request "count" = None
             /\ dict_lookup request "maxfeatures" = None
             /\ dict_lookup request "startindex" = None).
Proof.
  repeat split; try reflexivity. eexists. repeat split; try reflexivity.
  intros [Hnone _]. discriminate.
Qed.

(** * Further properties *)

(** ** Bounding boxes without a reference system of their own *)

Lemma bbox_srs_not_five `{CrsApi} (self : WebFeatureService_) (bbox : list pyval)
    (typename : option typename_arg) :
  length bbox <> 5%nat ->
  bbox_srs self bbox typename
  = (t <~ typename_first typename;;
     c <~ contents_item self t;;
     item (crsOptions c) 0).
Proof.
  intros Hlen. unfold bbox_srs.
  destruct (Nat.eqb_spec (length bbox) 5) as [Heq|_]; [done | reflexivity].
Qed.

(** X1. A bounding box that does not have five elements needs the default
    reference system, and the lookup fails before anything is formatted:
    TypeError without a typename, IndexError for an empty list or string of
    names, KeyError for a first name that is no feature type of the service,
    IndexError for a feature type without options. *)
Theorem getBBOXKVP_default_crs_failures `{CrsApi} (self : WebFeatureService_)
    (bbox : list pyval) :
  length bbox <> 5%nat ->
  getBBOXKVP self bbox None = Raise TypeError
  /\ getBBOXKVP self bbox (Some (TNames [])) = Raise IndexError
  /\ getBBOXKVP self bbox (Some (TName "")) = Raise IndexError
  /\ (forall t rest, contents self !! t = None ->
        getBBOXKVP self bbox (Some (TNames (t :: rest))) = Raise KeyError)
  /\ (forall t rest ft, contents self !! t = Some ft -> crsOptions ft = [] ->
        getBBOXKVP self bbox (Some (TNames (t :: rest))) = Raise IndexError).
Proof.
  intros Hlen. unfold getBBOXKVP.
  split; [by rewrite bbox_srs_not_five|].
  split; [by rewrite bbox_srs_not_five|].
  split; [by rewrite bbox_srs_not_five|].
  split.
  - intros t rest Hnone. rewrite bbox_srs_not_five by done.
    cbn. unfold contents_item. by rewrite Hnone.
  - intros t rest ft Hft Hopts. rewrite bbox_srs_not_five by done.
    cbn. unfold contents_item. rewrite Hft. cbn. by rewrite Hopts.
Qed.

Lemma getBBOXKVP_default_crs_failures_witness :
  getBBOXKVP (cadastre_service "1.1.0") [VInt 1; VInt 2; VInt 3; VInt 4]
    (Some (TNames ["rivers"])) = Raise KeyError
  /\ getBBOXKVP (cadastre_service "1.1.0") [VInt 1; VInt 2; VInt 3; VInt 4]
       (Some (TNames ["bare"; "roads"])) = Raise IndexError.
Proof.
  pose proof (getBBOXKVP_default_crs_failures (cadastre_service "1.1.0")
                [VInt 1; VInt 2; VInt 3; VInt 4] ltac:(discriminate))
    as (_ & _ & _ & Hkey & Hidx).
  split.
  - exact (Hkey "rivers" [] eq_refl).
  - exact (Hidx "bare" ["roads"] bare eq_refl eq_refl).
Defined.

Lemma format_bbox_short (bbox : list pyval) (i j k l : nat) (code : pyval) :
  (length bbox <= i \/ length bbox <= j \/ length bbox <= k \/ length bbox <= l)%nat ->
  format_bbox bbox i j k l code = Raise IndexError.
Proof.
  intros Hshort. unfold format_bbox, item.
  destruct (bbox !! i) eqn:Hi; cbn; [|done].
  destruct (bbox !! j) eqn:Hj; cbn; [|done].
  destruct (bbox !! k) eqn:Hk; cbn; [|done].
  destruct (bbox !! l) eqn:Hl; cbn; [|done].
  apply lookup_lt_Some in Hi, Hj, Hk, Hl. lia.
Qed.

(** X2. A bounding box with fewer than four elements raises IndexError at
    every version, once its reference system is found: no shorter string is
    ever returned. *)
Theorem getBBOXKVP_short_bbox `{CrsApi} (self : WebFeatureService_)
    (bbox : list pyval) (typename : option typename_arg) (t : string)
    (ft : ContentMetadata) (srs : Crs) (others : list Crs) :
  (length bbox < 4)%nat ->
  typename_first typename = Ok t ->
  contents self !! t = Some ft ->
  crsOptions ft = srs :: others ->
  getBBOXKVP self bbox typename = Raise IndexError.
Proof.
  intros Hlen Ht Hft Hopts. unfold getBBOXKVP.
  rewrite bbox_srs_not_five by lia. rewrite Ht. cbn.
  unfold contents_item. rewrite Hft. cbn. rewrite Hopts. cbn.
  repeat match goal with
  | |- context [if ?c then _ else _] => destruct c
  end; apply format_bbox_short; lia.
Qed.

Lemma getBBOXKVP_short_bbox_witness :
  getBBOXKVP (cadastre_service "2.0.0") [VInt 1; VInt 2; VInt 3]
    (Some (TNames ["parcels"])) = Raise IndexError.
Proof.
  apply (getBBOXKVP_short_bbox (cadastre_service "2.0.0") [VInt 1; VInt 2; VInt 3]
           (Some (TNames ["parcels"])) "parcels" parcels wgs84_urn [wgs84_code]);
    [cbn; lia | reflexivity | reflexivity | reflexivity].
Defined.

(** X3. The axis-order rule of versions "1.1.0" and "2.0.0" also applies to
    the default reference system: a four-element box whose feature type
    declares a first option with encoding "urn" and axis order "yx" is
    written miny, minx, maxy, maxx with the URN form of the code; with "urn"
    and another axis order the coordinates keep their order; with another
    encoding they keep their order and the plain code follows. *)
Theorem getBBOXKVP_default_crs_axis `{CrsApi} (self : WebFeatureService_)
    (minx miny maxx maxy : pyval) (typename : option typename_arg) (t : string)
    (ft : ContentMetadata) (srs : Crs) (others : list Crs) :
  version self = "1.1.0" \/ version self = "2.0.0" ->
  typename_first typename = Ok t ->
  contents self !! t = Some ft ->
  crsOptions ft = srs :: others ->
  let result := getBBOXKVP self [minx; miny; maxx; maxy] typename in
  (encoding srs = "urn" -> axisorder srs = "yx" ->
     result = Ok (join "," [str miny; str minx; str maxy; str maxx; getcodeurn srs]))
  /\ (encoding srs = "urn" -> axisorder srs <> "yx" ->
     result = Ok (join "," [str minx; str miny; str maxx; str maxy; getcodeurn srs]))
  /\ (encoding srs <> "urn" ->
     result = Ok (join "," [str minx; str miny; str maxx; str maxy; str (getcode srs)])).
Proof.
  intros Hv Ht Hft Hopts result. subst result. unfold getBBOXKVP.
  rewrite (bbox_srs_default self _ _ _ _ _ _ _ _ _ Ht Hft Hopts). cbn [res_bind].
  assert (Hin : str_in (version self) ["1.1.0"; "2.0.0"] = true).
  { apply str_in_spec. destruct Hv as [-> | ->]; [left | right; left]. }
  rewrite Hin. repeat split.
  - intros He Ha. rewrite He, Ha. cbn. by rewrite format5_join.
  - intros He Ha. rewrite He. apply String.eqb_neq in Ha. rewrite Ha.
    cbn. by rewrite format5_join.
  - intros He. apply String.eqb_neq in He. rewrite He.
    cbn. by rewrite format5_join.
Qed.

Lemma getBBOXKVP_default_crs_axis_witness :
  getBBOXKVP (cadastre_service "2.0.0") [VInt 10; VInt 20; VInt 30; VInt 40]
    (Some (TNames ["parcels"]))
  = Ok "20,10,40,30,urn:ogc:def:crs:EPSG::4326"
  /\ getBBOXKVP (cadastre_service "2.0.0") [VInt 10; VInt 20; VInt 30; VInt 40]
       (Some (TNames ["roads"]))
     = Ok "10,20,30,40,EPSG:4326".
Proof.
  split.
  - exact (proj1 (getBBOXKVP_default_crs_axis (cadastre_service "2.0.0")
                    (VInt 10) (VInt 20) (VInt 30) (VInt 40)
                    (Some (TNames ["parcels"])) "parcels" parcels wgs84_urn
                    [wgs84_code] (or_intror eq_refl) eq_refl eq_refl eq_refl)
             eq_refl eq_refl).
  - exact (proj2 (proj2 (getBBOXKVP_default_crs_axis (cadastre_service "2.0.0")
                    (VInt 10) (VInt 20) (VInt 30) (VInt 40)
                    (Some (TNames ["roads"])) "roads" roads wgs84_code
                    [mercator_urn] (or_intror eq_refl) eq_refl eq_refl eq_refl))
             ltac:(discriminate)).
Defined.

(** X4. Only the exact strings "1.1.0" and "2.0.0" select the axis-order
    rule.  At every other version, "2.0" included, a box with at least four
    elements is written minx, miny, maxx, maxy and the plain code, whatever
    the encoding and axis order of its reference system; elements after the
    fourth are not written. *)
Theorem getBBOXKVP_other_versions `{CrsApi} (self : WebFeatureService_)
    (minx miny maxx maxy : pyval) (rest : list pyval)
    (typename : option typename_arg) (srs : Crs) :
  version self <> "1.1.0" ->
  version self <> "2.0.0" ->
  bbox_srs self (minx :: miny :: maxx :: maxy :: rest) typename = Ok srs ->
  getBBOXKVP self (minx :: miny :: maxx :: maxy :: rest) typename
  = Ok (join "," [str minx; str miny; str maxx; str maxy; str (getcode srs)]).
Proof.
  intros Hv1 Hv2 Hsrs. unfold getBBOXKVP. rewrite Hsrs. cbn [res_bind].
  assert (Hin : str_in (version self) ["1.1.0"; "2.0.0"] = false).
  { unfold str_in. cbn. apply String.eqb_neq in Hv1, Hv2. by rewrite Hv1, Hv2. }
  rewrite Hin. cbn. by rewrite format5_join.
Qed.

Lemma getBBOXKVP_other_versions_witness :
  getBBOXKVP (cadastre_service "2.0")
    [VInt 10; VInt 20; VInt 30; VInt 40; VStr "urn:ogc:def:crs:EPSG::4326"] None
  = Ok "10,20,30,40,EPSG:4326".
Proof.
  exact (getBBOXKVP_other_versions (cadastre_service "2.0")
           (VInt 10) (VInt 20) (VInt 30) (VInt 40)
           [VStr "urn:ogc:def:crs:EPSG::4326"] None wgs84_urn
           ltac:(discriminate) ltac:(discriminate) eq_refl).
Defined.

(** ** The pass-through parameters *)

(** X25. The remaining optional arguments of the GET builder are written
    under their own names exactly when they are supplied (non-empty list,
    non-empty string, non-zero number): propertyname and sortby comma-joined,
    featureversion as it is, startindex in decimal, storedQueryID under
    "storedQuery_id"; each unless the merged stored-query parameters carry a
    key of that name. *)
Theorem optional_parameters `{CrsApi} {pyint : PyInt} (self : WebFeatureService_)
    (a : GetFeatureArgs) (request : dict qvalue) :
  get_request self a = Ok request ->
  let free k := k ∉ stored_query_keys a in
  (free "propertyname" ->
     dict_lookup request "propertyname"
     = option_map (fun l => qstr (join "," l))
         (given truthy_list (arg_propertyname a)))
  /\ (free "sortby" ->
        dict_lookup request "sortby"
        = option_map (fun l => qstr (join "," l)) (given truthy_list (arg_sortby a)))
  /\ (free "featureversion" ->
        dict_lookup request "featureversion"
        = option_map qstr (given truthy_str (arg_featureversion a)))
  /\ (free "startindex" ->
        dict_lookup request "startindex"
        = option_map (fun z => qstr (str_int z))
            (given truthy_int (arg_startindex a)))
  /\ (free "storedQuery_id" ->
        dict_lookup request "storedQuery_id"
        = option_map qstr (given truthy_str (arg_storedQueryID a))).
Proof.
  intros (r1 & r2 & r3 & H1 & H2 & H3 & ->)%get_request_steps free. subst free.
  cbn beta. repeat split; intros Hfree.
  - through H1 H2 H3.
    destruct (given truthy_list (arg_propertyname a)); cbn [set_if option_map].
    + apply dict_lookup_set_eq.
    + by through H1 H2 H3.
  - through H1 H2 H3.
    destruct (given truthy_list (arg_sortby a)); cbn [set_if option_map].
    + apply dict_lookup_set_eq.
    + by through H1 H2 H3.
  - through H1 H2 H3.
    destruct (given truthy_str (arg_featureversion a)); cbn [set_if option_map].
    + apply dict_lookup_set_eq.
    + by through H1 H2 H3.
  - through H1 H2 H3.
    destruct (given truthy_int (arg_startindex a)); cbn [set_if option_map].
    + apply dict_lookup_set_eq.
    + by through H1 H2 H3.
  - rewrite lookup_set_if_ne by discriminate.
    unfold stored_query_params, stored_query_keys in *.
    destruct (given truthy_str (arg_storedQueryID a)) as [q|]; cbn [option_map].
    + destruct (given truthy_list (arg_storedQueryParams a)) as [params|].
      * rewrite dict_lookup_merge by done. apply dict_lookup_set_eq.
      * cbn. apply dict_lookup_set_eq.
    + by through H1 H2 H3.
Qed.

Lemma optional_parameters_witness :
  exists request,
    get_request (example_service "1.1.0") paged_args = Ok request
    /\ dict_lookup request "propertyname" = Some (qstr "name,width")
    /\ dict_lookup request "sortby" = Some (qstr "name")
    /\ dict_lookup request "featureversion" = Some (qstr "3")
    /\ dict_lookup request "startindex" = Some (qstr "20")
    /\ dict_lookup request "storedQuery_id" = Some (qstr "q").
Proof.
  eexists. split; [reflexivity|].
  destruct (optional_parameters (example_service "1.1.0") paged_args _ eq_refl)
    as (Hp & Hs & Hf & Hi & Hq).
  split; [|split; [|split; [|split]]];
    [apply Hp | apply Hs | apply Hf | apply Hi | apply Hq]; apply not_elem_of_nil.
Defined.

(** ** A feature type given as a string *)

(** X5. In the GET builder a box without a reference system of its own
    looks its default up under [typename[0]]; for a typename passed as a
    string that is its first character.  So such a call raises KeyError when
    no feature type has that one-character name, whatever the full name is. *)
Theorem getGET_string_typename_box `{CrsApi} {pyint : PyInt} (self : WebFeatureService_)
    (a : GetFeatureArgs) (u : string) (bbox : list pyval) (c : ascii)
    (rest : string) :
  endpoint self (arg_method a) = Ok u ->
  truthy_opt truthy_list (arg_featureid a) = false ->
  arg_bbox a = Some bbox ->
  bbox <> [] ->
  length bbox <> 5%nat ->
  arg_typename a = Some (TName (String c rest)) ->
  contents self !! String c EmptyString = None ->
  getGETGetFeatureRequest self a = Raise KeyError.
Proof.
  intros Hend Hfid Hbbox Hne Hlen Htn Hnone.
  unfold getGETGetFeatureRequest. rewrite Hend. cbn [res_bind].
  unfold get_request, selector_param.
  rewrite (given_None _ _ Hfid), Hbbox, Htn.
  assert (Hgiven : given truthy_list (Some bbox) = Some bbox).
  { by destruct bbox. }
  rewrite Hgiven. unfold getBBOXKVP. rewrite bbox_srs_not_five by done.
  cbn. unfold contents_item. by rewrite Hnone.
Qed.

Lemma getGET_string_typename_box_witness :
  getGETGetFeatureRequest (example_service "1.1.0") roads_box_args = Raise KeyError.
Proof.
  apply (getGET_string_typename_box (example_service "1.1.0") roads_box_args
           "http://example.org/wfs" [VInt 1; VInt 2; VInt 3; VInt 4] "r" "oads");
    [reflexivity | reflexivity | reflexivity | discriminate | discriminate
    | reflexivity | reflexivity].
Defined.

(** X6. Apart from that lookup, a non-empty string is the list of that one
    name: the POST builder gives the same events and result for both, and so
    does the GET builder whenever it does not need a default reference
    system (a featureid is given, or no box, or a box of five elements). *)
Theorem typename_string_is_singleton `{CrsApi} {pyint : PyInt} `{PostRequestApi}
    (self : WebFeatureService_) (a : GetFeatureArgs) (s : string) :
  s <> "" ->
  getPOSTGetFeatureRequest self (with_typename a (Some (TName s)))
  = getPOSTGetFeatureRequest self (with_typename a (Some (TNames [s])))
  /\ (truthy_opt truthy_list (arg_featureid a) = true
      \/ truthy_opt truthy_list (arg_bbox a) = false
      \/ (exists bbox, arg_bbox a = Some bbox /\ length bbox = 5%nat) ->
      getGETGetFeatureRequest self (with_typename a (Some (TName s)))
      = getGETGetFeatureRequest self (with_typename a (Some (TNames [s])))).
Proof.
  intros Hs.
  assert (Hg : given truthy_typename (Some (TName s)) = Some (TName s)).
  { cbn. unfold truthy_str. apply String.eqb_neq in Hs. by rewrite Hs. }
  split.
  - unfold getPOSTGetFeatureRequest, post_request.
    cbn [arg_typename arg_filter arg_method with_typename].
    rewrite Hg. reflexivity.
  - intros Hcase.
    assert (Hsel : forall request,
              selector_param self (with_typename a (Some (TName s))) request
              = selector_param self (with_typename a (Some (TNames [s]))) request).
    { intros request. unfold selector_param.
      cbn [arg_featureid arg_bbox arg_filter arg_typename with_typename].
      destruct Hcase as [Hfid | [Hbox | (bbox & Hbox & Hlen)]].
      - by destruct (given_Some _ _ Hfid) as (ids & _ & ->).
      - by rewrite (given_None _ _ Hbox).
      - destruct (given truthy_list (arg_featureid a)); [done|].
        rewrite Hbox. destruct (given truthy_list (Some bbox)) as [b|] eqn:Hb;
          [|done].
        assert (b = bbox) as ->.
        { destruct bbox; cbn in Hb; congruence. }
        unfold getBBOXKVP, bbox_srs.
        by rewrite (proj2 (Nat.eqb_eq _ _) Hlen). }
    assert (Hreq : get_request self (with_typename a (Some (TName s)))
              = get_request self (with_typename a (Some (TNames [s])))).
    { unfold get_request. rewrite Hsel.
      destruct (selector_param self _ _) as [r|]; [cbn [res_bind] | reflexivity].
      assert (Htn : typename_param self (with_typename a (Some (TName s))) r
                = typename_param self (with_typename a (Some (TNames [s]))) r).
      { unfold typename_param. cbn [arg_typename with_typename].
        by rewrite Hg. }
      by rewrite Htn. }
    unfold getGETGetFeatureRequest. by rewrite Hreq.
Qed.

Lemma typename_string_is_singleton_witness :
  getPOSTGetFeatureRequest (example_service "2.0.0")
    (with_typename (default_args "Post") (Some (TName "roads")))
  = ([Constructed; Called (create_query "roads"); Serialized],
     Ok ("http://example.org/wfs", "create_query"))
  /\ getGETGetFeatureRequest (example_service "2.0.0")
       (with_typename (default_args "Get") (Some (TName "roads")))
     = Ok "http://example.org/wfs?service=WFS&version=2.0.0&request=GetFeature&typenames=roads".
Proof.
  pose proof (typename_string_is_singleton (example_service "2.0.0")
                (default_args "Post") "roads" ltac:(discriminate)) as [Hpost _].
  pose proof (typename_string_is_singleton (example_service "2.0.0")
                (default_args "Get") "roads" ltac:(discriminate)) as [_ Hget].
  split.
  - exact Hpost.
  - exact (Hget (or_intror (or_introl eq_refl))).
Defined.

(** ** Hard failures and stability of getSRS *)

(** X7. The soft failure of getSRS covers only a reference system that is
    not declared.  An identifier the Crs constructor rejects raises the
    constructor's exception, and a typename that is no feature type of the
    service raises KeyError; in both cases nothing is logged. *)
Theorem getSRS_hard_failures `{CrsApi} (self : WebFeatureService_)
    (srsname : srs_arg) (typename : string) :
  (forall e, to_crs srsname = Raise e ->
     getSRS self srsname typename = ([], Raise e))
  /\ (forall srs, to_crs srsname = Ok srs ->
        contents self !! typename = None ->
        getSRS self srsname typename = ([], Raise KeyError)).
Proof.
  split.
  - intros e He. unfold getSRS. by rewrite He.
  - intros srs Hsrs Hnone. unfold getSRS, contents_item.
    by rewrite Hsrs, bind_lift_Ok, Hnone.
Qed.

Lemma getSRS_hard_failures_witness :
  getSRS (example_service "2.0.0") (SrsName (VStr "EPSG:27700")) "roads"
  = ([], Raise ValueError)
  /\ getSRS (example_service "2.0.0") (SrsName (VStr "EPSG:4326")) "rivers"
     = ([], Raise KeyError).
Proof.
  split.
  - exact (proj1 (getSRS_hard_failures (example_service "2.0.0")
                    (SrsName (VStr "EPSG:27700")) "roads") ValueError eq_refl).
  - exact (proj2 (getSRS_hard_failures (example_service "2.0.0")
                    (SrsName (VStr "EPSG:4326")) "rivers") wgs84_code
             eq_refl eq_refl).
Defined.

Lemma getSRS_found `{CrsApi} (self : WebFeatureService_) (srsname : srs_arg)
    (typename : string) (found : Crs) :
  outcome (getSRS self srsname typename) = Ok (Some found) ->
  exists srs ft i,
    to_crs srsname = Ok srs
    /\ contents self !! typename = Some ft
    /\ crs_index (crsOptions ft) srs = Some i
    /\ crsOptions ft !! i = Some found.
Proof.
  unfold getSRS, contents_item.
  destruct (to_crs srsname) as [srs|]; [rewrite bind_lift_Ok | done].
  destruct (contents self !! typename) as [ft|]; [rewrite bind_lift_Ok | done].
  destruct (crs_index (crsOptions ft) srs) as [i|] eqn:Hidx; [|done].
  unfold item. destruct (crsOptions ft !! i) as [c|] eqn:Hi; [|done].
  cbn. intros [= ->]. by exists srs, ft, i.
Qed.

(** X8. What getSRS returns is an entry of the feature type's option list,
    and asking again with that entry gives it back: when the equality of
    reference systems is reflexive and transitive (as one that compares
    codes is), a second lookup with the result returns the same entry and
    logs nothing. *)
Theorem getSRS_stable `{CrsApi} (self : WebFeatureService_) (srsname : srs_arg)
    (typename : string) (found : Crs) :
  (forall x, crs_eq x x = true) ->
  (forall x y z, crs_eq x y = true -> crs_eq y z = true -> crs_eq x z = true) ->
  outcome (getSRS self srsname typename) = Ok (Some found) ->
  (exists ft, contents self !! typename = Some ft /\ found ∈ crsOptions ft)
  /\ getSRS self (SrsCrs found) typename = ([], Ok (Some found)).
Proof.
  intros Hrefl Htrans (srs & ft & i & Hsrs & Hft & Hidx & Hi)%getSRS_found.
  split.
  { exists ft. split; [done|]. apply list_elem_of_lookup. by exists i. }
  destruct (crs_index_Some _ _ _ Hidx) as (entry & Hentry & Heq & Hbefore).
  assert (entry = found) as -> by congruence.
  assert (Hagain : crs_index (crsOptions ft) found = Some i).
  { destruct (crs_index (crsOptions ft) found) as [j|] eqn:Hj.
    - destruct (crs_index_Some _ _ _ Hj) as (e & He & Hefound & Hjbefore).
      f_equal. destruct (Nat.lt_trichotomy j i) as [Hlt | [-> | Hgt]]; [|done|].
      + pose proof (Hbefore j e Hlt He) as Hne.
        rewrite (Htrans e found srs Hefound Heq) in Hne. discriminate.
      + pose proof (Hjbefore i found Hgt Hi) as Hne.
        rewrite Hrefl in Hne. discriminate.
    - assert (Hin : found ∈ crsOptions ft).
      { apply list_elem_of_lookup. by exists i. }
      pose proof (proj1 (crs_index_None _ _) Hj found Hin) as Hne.
      rewrite Hrefl in Hne. discriminate. }
  unfold getSRS, contents_item. cbn [to_crs].
  rewrite bind_lift_Ok, Hft, bind_lift_Ok, Hagain. unfold item. by rewrite Hi.
Qed.

Lemma getSRS_stable_witness :
  getSRS (example_service "2.0.0") (@SrsCrs table_crs wgs84_code) "roads"
  = ([], Ok (Some wgs84_code)).
Proof.
  refine (proj2 (getSRS_stable (example_service "2.0.0")
                   (SrsName (VStr "urn:ogc:def:crs:EPSG::4326")) "roads"
                   wgs84_code _ _ eq_refl)).
  - intros x. apply String.eqb_refl.
  - intros x y z Hxy Hyz. cbn in *.
    apply String.eqb_eq in Hxy, Hyz. apply String.eqb_eq. congruence.
Defined.

(** ** More on the endpoint *)

Lemma next_url_lower (methods : list (dict pyval)) (m1 m2 : string) :
  lower m1 = lower m2 -> next_url methods m1 = next_url methods m2.
Proof.
  intros Hlow. induction methods as [|m methods IH]; [done|].
  cbn. unfold method_matches. rewrite Hlow, IH. reflexivity.
Qed.

(** X9. The requested method counts only up to the case of its letters: two
    method names with the same lower-case form give the same result, events
    included, in both builders. *)
Theorem method_case_insensitive `{CrsApi} {pyint : PyInt} `{PostRequestApi}
    (self : WebFeatureService_) (a : GetFeatureArgs) (m1 m2 : string) :
  lower m1 = lower m2 ->
  getGETGetFeatureRequest self (with_method a m1)
  = getGETGetFeatureRequest self (with_method a m2)
  /\ getPOSTGetFeatureRequest self (with_method a m1)
     = getPOSTGetFeatureRequest self (with_method a m2).
Proof.
  intros Hlow.
  assert (Hend : endpoint self m1 = endpoint self m2).
  { unfold endpoint. destruct (getOperationByName self "GetFeature"); [|done].
    cbn. by rewrite (next_url_lower _ _ _ Hlow). }
  split.
  - unfold getGETGetFeatureRequest. cbn [arg_method with_method].
    by rewrite Hend.
  - unfold getPOSTGetFeatureRequest. cbn [arg_method with_method].
    by rewrite Hend.
Qed.

Lemma method_case_insensitive_witness :
  getGETGetFeatureRequest (example_service "1.0.0")
    (with_method (default_args "Get") "GET")
  = getGETGetFeatureRequest (example_service "1.0.0")
      (with_method (default_args "Get") "get").
Proof.
  exact (proj1 (method_case_insensitive (example_service "1.0.0")
                  (default_args "Get") "GET" "get" eq_refl)).
Defined.

Lemma next_url_stops (before : list (dict pyval)) (m : dict pyval)
    (after : list (dict pyval)) (method : string) :
  method_matches m method = Ok true ->
  next_url (before ++ m :: after) method = next_url (before ++ [m]) method.
Proof.
  intros Hm. induction before as [|m' before IH]; cbn.
  - by rewrite Hm.
  - by rewrite IH.
Qed.

(** X10. The search stops at the first matching entry: whatever follows it
    in the method list, entries without a type included, is never read, so
    two services whose lists agree up to that entry resolve alike. *)
Theorem endpoint_ignores_later_entries `{CrsApi} (self self' : WebFeatureService_)
    (method : string) (op op' : OperationMetadata) (before : list (dict pyval))
    (m : dict pyval) (after after' : list (dict pyval)) :
  getOperationByName self "GetFeature" = Ok op ->
  getOperationByName self' "GetFeature" = Ok op' ->
  methods op = before ++ m :: after ->
  methods op' = before ++ m :: after' ->
  method_matches m method = Ok true ->
  endpoint self method = endpoint self' method.
Proof.
  intros Hop Hop' Hms Hms' Hm. unfold endpoint.
  rewrite Hop, Hop'. cbn. rewrite Hms, Hms'.
  by rewrite (next_url_stops before m after), (next_url_stops before m after').
Qed.

Lemma endpoint_ignores_later_entries_witness :
  endpoint (odd_service "2.0.0") "post" = endpoint (post_only_service "2.0.0") "post".
Proof.
  exact (endpoint_ignores_later_entries (odd_service "2.0.0")
           (post_only_service "2.0.0") "post" odd_operation post_only_operation []
           [("type", VStr "Post"); ("url", VStr "http://example.org/wfs")]
           [[("type", VStr "Get")]; [("url", VStr "http://example.org/other")]]
           [] eq_refl eq_refl eq_refl eq_refl eq_refl).
Defined.

Lemma builders_endpoint_raise `{CrsApi} {pyint : PyInt} `{PostRequestApi}
    (self : WebFeatureService_) (a : GetFeatureArgs) (e : exn) :
  endpoint self (arg_method a) = Raise e ->
  getGETGetFeatureRequest self a = Raise e
  /\ getPOSTGetFeatureRequest self a = (events (post_warnings a), Raise e).
Proof.
  intros Hend. unfold getGETGetFeatureRequest, getPOSTGetFeatureRequest.
  rewrite Hend. split; [reflexivity|].
  rewrite post_warnings_eq at 1. rewrite bind_Ok, bind_lift_Raise. cbn.
  by rewrite app_nil_r.
Qed.

Lemma next_url_bad_type (before : list (dict pyval)) (m : dict pyval)
    (after : list (dict pyval)) (method : string) :
  Forall (fun m' => method_matches m' method = Ok false) before ->
  (forall t, dict_get m "type" <> VStr t) ->
  next_url (before ++ m :: after) method = Raise AttributeError.
Proof.
  intros Hbefore Htype. induction Hbefore as [|m' before Hm' _ IH]; cbn.
  - unfold method_matches.
    destruct (dict_get m "type") as [| t | |]; try done.
    by destruct (Htype t).
  - by rewrite Hm'.
Qed.

(** X11. Other failures of the endpoint lookup also end both builders
    before any request exists, the POST builder having logged its warnings
    only: the exception of getOperationByName when the service has no
    GetFeature operation, and AttributeError when an entry reached by the
    search has no string under "type", or when the matching entry has no
    string under "url". *)
Theorem endpoint_failures `{CrsApi} {pyint : PyInt} `{PostRequestApi}
    (self : WebFeatureService_) (a : GetFeatureArgs) :
  (forall e, getOperationByName self "GetFeature" = Raise e ->
     getGETGetFeatureRequest self a = Raise e
     /\ getPOSTGetFeatureRequest self a = (events (post_warnings a), Raise e))
  /\ (forall op before m after,
        getOperationByName self "GetFeature" = Ok op ->
        methods op = before ++ m :: after ->
        Forall (fun m' => method_matches m' (arg_method a) = Ok false) before ->
        (forall t, dict_get m "type" <> VStr t)
        \/ (method_matches m (arg_method a) = Ok true
            /\ forall u, dict_get m "url" <> VStr u) ->
        getGETGetFeatureRequest self a = Raise AttributeError
        /\ getPOSTGetFeatureRequest self a
           = (events (post_warnings a), Raise AttributeError)).
Proof.
  split.
  - intros e He. apply builders_endpoint_raise. unfold endpoint. by rewrite He.
  - intros op before m after Hop Hms Hbefore Hbad.
    apply builders_endpoint_raise. unfold endpoint. rewrite Hop. cbn. rewrite Hms.
    destruct Hbad as [Htype | [Hm Hurl]].
    + by rewrite (next_url_bad_type _ _ _ _ Hbefore Htype).
    + rewrite (next_url_first _ _ _ _ Hbefore Hm). cbn.
      destruct (dict_get m "url") as [| u | |]; try done.
      by destruct (Hurl u).
Qed.

Lemma endpoint_failures_witness :
  getGETGetFeatureRequest (no_operation_service "2.0.0") (default_args "Get")
  = Raise KeyError
  /\ getGETGetFeatureRequest (odd_service "2.0.0") (default_args "Get")
     = Raise AttributeError
  /\ getPOSTGetFeatureRequest (odd_service "2.0.0") (default_args "Put")
     = ([], Raise AttributeError).
Proof.
  split; [|split].
  - exact (proj1 (proj1 (endpoint_failures (no_operation_service "2.0.0")
                           (default_args "Get")) KeyError eq_refl)).
  - refine (proj1 (proj2 (endpoint_failures (odd_service "2.0.0")
                            (default_args "Get")) odd_operation
                     [[("type", VStr "Post"); ("url", VStr "http://example.org/wfs")]]
                     [("type", VStr "Get")]
                     [[("url", VStr "http://example.org/other")]]
                     eq_refl eq_refl ltac:(repeat constructor) _)).
    right. split; [reflexivity | discriminate].
  - refine (proj2 (proj2 (endpoint_failures (odd_service "2.0.0")
                            (default_args "Put")) odd_operation
                     [[("type", VStr "Post"); ("url", VStr "http://example.org/wfs")];
                      [("type", VStr "Get")]]
                     [("url", VStr "http://example.org/other")]
                     []
                     eq_refl eq_refl ltac:(repeat constructor) _)).
    left. discriminate.
Defined.

Lemma append_assoc (s t u : string) : (s +:+ t) +:+ u = s +:+ (t +:+ u).
Proof.
  induction s as [|c s IH]; [done|]. rewrite !append_cons. by rewrite IH.
Qed.

Lemma get_base_is_post_base (u : string) :
  (if endswith u "?" then u else u +:+ "?")
  = (if negb (endswith u "?") then u else drop_last u) +:+ "?".
Proof.
  destruct (endswith u "?") eqn:Hends; cbn; [|done].
  by apply endswith_drop_last.
Qed.

(** X12. The two builders normalise the endpoint in opposite ways that fit
    together: for the same arguments, the URL of the GET builder is the URL
    of the POST builder, then "?", then the encoded parameters. *)
Theorem get_url_extends_post_url `{CrsApi} {pyint : PyInt} `{PostRequestApi}
    (self : WebFeatureService_) (a : GetFeatureArgs) (url post_url body : string) :
  getGETGetFeatureRequest self a = Ok url ->
  outcome (getPOSTGetFeatureRequest self a) = Ok (post_url, body) ->
  exists request,
    get_request self a = Ok request
    /\ url = post_url +:+ "?" +:+ urlencode request.
Proof.
  unfold getGETGetFeatureRequest, getPOSTGetFeatureRequest.
  destruct (endpoint self (arg_method a)) as [u|]; cbn [res_bind]; [|done].
  destruct (get_request self a) as [request|]; cbn [res_bind]; [|done].
  intros [= <-]. rewrite post_warnings_eq, bind_Ok, bind_lift_Ok.
  cbn [outcome snd]. intros ->%post_request_url.
  exists request. split; [done|].
  by rewrite get_base_is_post_base, append_assoc.
Qed.

Lemma get_url_extends_post_url_witness :
  exists request,
    get_request (example_service "2.0.0")
      (with_typename (default_args "Post") (Some (TNames ["roads"])))
    = Ok request
    /\ "http://example.org/wfs?service=WFS&version=2.0.0&request=GetFeature&typenames=roads"
       = "http://example.org/wfs" +:+ "?" +:+ urlencode request.
Proof.
  exact (get_url_extends_post_url (example_service "2.0.0")
           (with_typename (default_args "Post") (Some (TNames ["roads"])))
           "http://example.org/wfs?service=WFS&version=2.0.0&request=GetFeature&typenames=roads"
           "http://example.org/wfs" "create_query" eq_refl eq_refl).
Defined.

(** ** Shape of the parameter mapping *)

Lemma dict_keys_set_in {V} (d : dict V) (k : string) (v : V) :
  k ∈ dict_keys d -> dict_keys (dict_set d k v) = dict_keys d.
Proof.
  induction d as [|[k0 v0] d IH]; cbn; [by intros ?%elem_of_nil|].
  destruct (String.eqb_spec k0 k) as [->|Hne]; [done|].
  intros [->|Hin]%elem_of_cons; [done|]. cbn. f_equal. by apply IH.
Qed.

Lemma dict_keys_set_notin {V} (d : dict V) (k : string) (v : V) :
  k ∉ dict_keys d -> dict_keys (dict_set d k v) = dict_keys d ++ [k].
Proof.
  induction d as [|[k0 v0] d IH]; cbn; [done|].
  intros [Hne Hnotin]%not_elem_of_cons.
  destruct (String.eqb_spec k0 k) as [->|_]; [done|]. cbn. f_equal. by apply IH.
Qed.

Lemma extends_refl {V} (d : dict V) : extends d d.
Proof. split; [|done]. exists []. by rewrite app_nil_r. Qed.

Lemma extends_trans {V} (d1 d2 d3 : dict V) :
  extends d1 d2 -> extends d2 d3 -> extends d1 d3.
Proof.
  intros [[m1 H1] N1] [[m2 H2] N2]. split; [|auto].
  exists (m1 ++ m2). by rewrite H2, H1, app_assoc.
Qed.

Lemma extends_set {V} (d : dict V) (k : string) (v : V) : extends d (dict_set d k v).
Proof.
  destruct (decide (k ∈ dict_keys d)) as [Hin|Hnotin].
  - unfold extends. rewrite (dict_keys_set_in _ _ _ Hin). apply extends_refl.
  - unfold extends. rewrite (dict_keys_set_notin _ _ _ Hnotin).
    split; [by eexists|].
    intros Hnodup. apply NoDup_app. split; [done|]. split.
    + by intros x Hx ->%list_elem_of_singleton.
    + apply NoDup_singleton.
Qed.

Lemma extends_merge (params request : dict qvalue) :
  extends request (merge_params request params).
Proof.
  unfold merge_params. revert request.
  induction params as [|[k v] params IH]; intros request; cbn.
  - apply extends_refl.
  - eapply extends_trans; [apply extends_set | apply IH].
Qed.

Lemma extends_set_if {A} (arg : option A) (key : string) (text : A -> string)
    (request : dict qvalue) :
  extends request (set_if arg key text request).
Proof. destruct arg; cbn; [apply extends_set | apply extends_refl]. Qed.

Lemma extends_stored_query (a : GetFeatureArgs) (request : dict qvalue) :
  extends request (stored_query_params a request).
Proof.
  unfold stored_query_params.
  destruct (given truthy_str (arg_storedQueryID a)); [|apply extends_refl].
  eapply extends_trans; [apply extends_set | apply extends_merge].
Qed.

Lemma extends_selector `{CrsApi} (self : WebFeatureService_) (a : GetFeatureArgs)
    (r r' : dict qvalue) :
  selector_param self a r = Ok r' -> extends r r'.
Proof.
  unfold selector_param.
  destruct (given truthy_list (arg_featureid a)).
  { intros [= <-]. apply extends_set. }
  destruct (given truthy_list (arg_bbox a)).
  { destruct (getBBOXKVP self _ _); cbn; [|done].
    intros [= <-]. apply extends_set. }
  destruct (given truthy_str (arg_filter a)); intros [= <-];
    [apply extends_set | apply extends_refl].
Qed.

Lemma extends_typename `{CrsApi} {pyint : PyInt} (self : WebFeatureService_) (a : GetFeatureArgs)
    (r r' : dict qvalue) :
  typename_param self a r = Ok r' -> extends r r'.
Proof.
  unfold typename_param.
  destruct (given truthy_typename (arg_typename a));
    [|intros [= <-]; apply extends_refl].
  destruct (major_ge_2 self) as [[]|]; cbn; [..|done];
    intros [= <-]; apply extends_set.
Qed.

Lemma extends_maxfeatures `{CrsApi} {pyint : PyInt} (self : WebFeatureService_) (a : GetFeatureArgs)
    (r r' : dict qvalue) :
  maxfeatures_param self a r = Ok r' -> extends r r'.
Proof.
  unfold maxfeatures_param.
  destruct (given truthy_int (arg_maxfeatures a));
    [|intros [= <-]; apply extends_refl].
  destruct (major_ge_2 self) as [[]|]; cbn; [..|done];
    intros [= <-]; apply extends_set.
Qed.

(** X13. In every mapping the GET builder encodes, "service", "version"
    and "request" are the first three keys, in that order, and no key occurs
    twice: a parameter written again, by a later block or by a stored query,
    replaces the value in place. *)
Theorem get_request_keys `{CrsApi} {pyint : PyInt} (self : WebFeatureService_) (a : GetFeatureArgs)
    (request : dict qvalue) :
  get_request self a = Ok request ->
  NoDup (dict_keys request)
  /\ exists more, dict_keys request = "service" :: "version" :: "request" :: more.
Proof.
  intros (r1 & r2 & r3 & H1 & H2 & H3 & ->)%get_request_steps.
  assert (Hext : extends
            [("service", qstr "WFS"); ("version", qstr (version self));
             ("request", qstr "GetFeature")]
            (set_if (arg_outputFormat a) "outputFormat" id
               (stored_query_params a
                  (set_if (given truthy_int (arg_startindex a)) "startindex"
                     str_int r3)))).
  { eapply extends_trans; [exact (extends_selector _ _ _ _ H1)|].
    eapply extends_trans; [exact (extends_typename _ _ _ _ H2)|].
    eapply extends_trans; [|apply extends_set_if].
    eapply extends_trans; [|apply extends_stored_query].
    eapply extends_trans; [|apply extends_set_if].
    eapply extends_trans; [|exact (extends_maxfeatures _ _ _ _ H3)].
    eapply extends_trans; [|apply extends_set_if].
    eapply extends_trans; [|apply extends_set_if].
    apply extends_set_if. }
  destruct Hext as [[more Hmore] Hnodup]. split.
  - apply Hnodup. apply (bool_decide_unpack _). by vm_compute.
  - exists more. exact Hmore.
Qed.

Lemma get_request_keys_witness :
  NoDup ["service"; "version"; "request"; "typenames"; "count";
         "storedQuery_id"; "ID"; "outputFormat"]
  /\ exists more,
       ["service"; "version"; "request"; "typenames"; "count";
        "storedQuery_id"; "ID"; "outputFormat"]
       = "service" :: "version" :: "request" :: more.
Proof.
  exact (get_request_keys (example_service "2.0.0") overriding_args _ eq_refl).
Defined.

(** ** Stored queries and the built-in parameters *)

(** X14. The three fixed parameters have the values service=WFS,
    version=the version of the service and request=GetFeature in every
    mapping the GET builder encodes, each unless the merged stored-query
    parameters carry a key of that name. *)
Theorem fixed_parameters `{CrsApi} {pyint : PyInt} (self : WebFeatureService_) (a : GetFeatureArgs)
    (request : dict qvalue) :
  get_request self a = Ok request ->
  ("service" ∉ stored_query_keys a ->
     dict_lookup request "service" = Some (qstr "WFS"))
  /\ ("version" ∉ stored_query_keys a ->
        dict_lookup request "version" = Some (qstr (version self)))
  /\ ("request" ∉ stored_query_keys a ->
        dict_lookup request "request" = Some (qstr "GetFeature")).
Proof.
  intros (r1 & r2 & r3 & H1 & H2 & H3 & ->)%get_request_steps.
  repeat split; intros Hfree; by through H1 H2 H3.
Qed.

Lemma fixed_parameters_witness :
  exists request,
    get_request (example_service "1.1.0") stored_bbox_args = Ok request
    /\ dict_lookup request "service" = Some (qstr "WFS")
    /\ dict_lookup request "version" = Some (qstr "1.1.0")
    /\ dict_lookup request "request" = Some (qstr "GetFeature").
Proof.
  eexists. split; [reflexivity|].
  destruct (fixed_parameters (example_service "1.1.0") stored_bbox_args _ eq_refl)
    as (Hs & Hv & Hr).
  split; [|split]; [apply Hs | apply Hv | apply Hr];
    cbn; intros [=]%list_elem_of_singleton.
Defined.

Lemma dict_lookup_merge_in (params request : dict qvalue) (k : string)
    (v : qvalue) :
  NoDup (dict_keys params) ->
  dict_lookup params k = Some v ->
  dict_lookup (merge_params request params) k = Some v.
Proof.
  unfold merge_params. revert request.
  induction params as [|[k0 v0] params IH]; intros request Hnodup; cbn; [done|].
  cbn in Hnodup. apply NoDup_cons in Hnodup as [Hnotin Hnodup].
  destruct (String.eqb_spec k0 k) as [->|Hne].
  - intros [= ->].
    change (dict_lookup (merge_params (dict_set request k v) params) k = Some v).
    rewrite dict_lookup_merge by done. apply dict_lookup_set_eq.
  - intros Hk. by apply IH.
Qed.

(** X15. A stored query overrides the built-in parameters: when
    storedQueryID is given, every entry of storedQueryParams (a dictionary,
    so without repeated keys) is in the encoded mapping with the caller's
    value, also under "service", "version", "request", "typenames" or
    "storedQuery_id"; only "outputFormat", written afterwards, takes the
    outputFormat argument when there is one. *)
Theorem stored_query_wins `{CrsApi} {pyint : PyInt} (self : WebFeatureService_) (a : GetFeatureArgs)
    (params request : dict qvalue) (k : string) (v : qvalue) :
  truthy_opt truthy_str (arg_storedQueryID a) = true ->
  arg_storedQueryParams a = Some params ->
  NoDup (dict_keys params) ->
  dict_lookup params k = Some v ->
  (k = "outputFormat" -> arg_outputFormat a = None) ->
  get_request self a = Ok request ->
  dict_lookup request k = Some v.
Proof.
  intros Hid Hparams Hnodup Hk Hout
    (r1 & r2 & r3 & H1 & H2 & H3 & ->)%get_request_steps.
  assert (Hstored : forall r, dict_lookup (stored_query_params a r) k = Some v).
  { intros r. unfold stored_query_params.
    destruct (given_Some _ _ Hid) as (q & _ & ->). rewrite Hparams.
    assert (Hgiven : given truthy_list (Some params) = Some params).
    { destruct params; [discriminate | reflexivity]. }
    rewrite Hgiven. by apply dict_lookup_merge_in. }
  destruct (String.eqb_spec "outputFormat" k) as [<-|Hne].
  - rewrite Hout by done. cbn. apply Hstored.
  - rewrite lookup_set_if_ne by done. apply Hstored.
Qed.

Lemma stored_query_wins_witness :
  exists request,
    get_request (example_service "2.0.0") overriding_args = Ok request
    /\ dict_lookup request "version" = Some (One (VStr "9.9"))
    /\ dict_lookup request "count" = Some (One (VInt 5))
    /\ getGETGetFeatureRequest (example_service "2.0.0") overriding_args
       = Ok "http://example.org/wfs?service=WFS&version=9.9&request=GetFeature&typenames=roads&count=5&storedQuery_id=q&ID=r1&outputFormat=json".
Proof.
  eexists. split; [reflexivity|].
  split; [|split].
  - eapply (stored_query_wins (example_service "2.0.0") overriding_args
              [("version", One (VStr "9.9")); ("ID", One (VStr "r1"));
               ("count", One (VInt 5))] _ "version");
      [reflexivity | reflexivity | apply (bool_decide_unpack _); by vm_compute
      | reflexivity | discriminate | reflexivity].
  - eapply (stored_query_wins (example_service "2.0.0") overriding_args
              [("version", One (VStr "9.9")); ("ID", One (VStr "r1"));
               ("count", One (VInt 5))] _ "count");
      [reflexivity | reflexivity | apply (bool_decide_unpack _); by vm_compute
      | reflexivity | discriminate | reflexivity].
  - reflexivity.
Defined.

Lemma res_bind_ext {A B} (m : res A) (f g : A -> res B) :
  (forall x, f x = g x) -> res_bind m f = res_bind m g.
Proof. intros Hfg. destruct m; cbn; [apply Hfg | done]. Qed.

(** X16. Without storedQueryID the GET builder never reads
    storedQueryParams: whatever mapping is passed, the result is the one of
    the call without it. *)
Theorem stored_params_need_id `{CrsApi} {pyint : PyInt} (self : WebFeatureService_)
    (a : GetFeatureArgs) (params : option (dict qvalue)) :
  truthy_opt truthy_str (arg_storedQueryID a) = false ->
  getGETGetFeatureRequest self (with_storedQueryParams a params)
  = getGETGetFeatureRequest self a.
Proof.
  intros Hid.
  assert (Hstored : forall p r, stored_query_params (with_storedQueryParams a p) r = r).
  { intros p r. unfold stored_query_params.
    cbn [arg_storedQueryID with_storedQueryParams].
    by rewrite (given_None _ _ Hid). }
  assert (Hsame : forall r, stored_query_params a r = r).
  { intros r. unfold stored_query_params. by rewrite (given_None _ _ Hid). }
  unfold getGETGetFeatureRequest, get_request.
  apply res_bind_ext; intros base_url. f_equal.
  apply res_bind_ext; intros r1. apply res_bind_ext; intros r2.
  apply res_bind_ext; intros r3. by rewrite Hstored, Hsame.
Qed.

Lemma stored_params_need_id_witness :
  getGETGetFeatureRequest (example_service "2.0.0")
    (with_storedQueryParams fifty_roads_args (Some [("count", One (VInt 5))]))
  = getGETGetFeatureRequest (example_service "2.0.0") fifty_roads_args.
Proof.
  exact (stored_params_need_id (example_service "2.0.0") fifty_roads_args
           (Some [("count", One (VInt 5))]) eq_refl).
Defined.

(** X17. In the POST builder featureversion, storedQueryID and
    storedQueryParams are not encoded.  Each one that is supplied is answered
    by one warning, in this order and before anything else happens, saying
    that the use of the argument is not yet implemented with the Post
    method; apart from these warnings the call is the call without the
    three: same result or exception, same further events. *)
Theorem post_unencoded_arguments `{CrsApi} `{PostRequestApi}
    (self : WebFeatureService_) (a : GetFeatureArgs) :
  let warning (supplied : bool) (argument : string) : list event :=
    if supplied then
      [Warning ("Use of the " +:+ argument
                +:+ " argument is not yet implemented with the Post method") []]
    else [] in
  outcome (getPOSTGetFeatureRequest self a)
  = outcome (getPOSTGetFeatureRequest self (without_unencoded a))
  /\ events (getPOSTGetFeatureRequest self a)
     = warning (truthy_opt truthy_str (arg_featureversion a)) "featureversion"
       ++ warning (truthy_opt truthy_str (arg_storedQueryID a)) "storedQueryID"
       ++ warning (truthy_opt truthy_list (arg_storedQueryParams a))
            "storedQueryParams"
       ++ events (getPOSTGetFeatureRequest self (without_unencoded a)).
Proof.
  intros warning.
  assert (Hbare : getPOSTGetFeatureRequest self (without_unencoded a)
            = (base_url <- lift (endpoint self (arg_method a));
               let base_url :=
                 if negb (endswith base_url "?") then base_url
                 else drop_last base_url in
               post_request self base_url a)).
  { unfold getPOSTGetFeatureRequest.
    change (post_warnings (without_unencoded a)) with (lift (Ok tt)).
    rewrite bind_lift_Ok. reflexivity. }
  assert (Hwarn : events (post_warnings a)
            = warning (truthy_opt truthy_str (arg_featureversion a)) "featureversion"
              ++ warning (truthy_opt truthy_str (arg_storedQueryID a))
                   "storedQueryID"
              ++ warning (truthy_opt truthy_list (arg_storedQueryParams a))
                   "storedQueryParams").
  { unfold post_warnings, warning.
    destruct (truthy_opt truthy_str (arg_featureversion a)),
      (truthy_opt truthy_str (arg_storedQueryID a)),
      (truthy_opt truthy_list (arg_storedQueryParams a)); reflexivity. }
  rewrite Hbare. unfold getPOSTGetFeatureRequest.
  rewrite post_warnings_eq at 1 2. rewrite bind_Ok. cbn [outcome events fst snd].
  split; [reflexivity|]. by rewrite Hwarn, <- !app_assoc.
Qed.

(** ** Arguments that hide or outlast others *)

(** X18. The outputFormat argument is tested against None, not for truth,
    in the GET builder: whenever it is given, the empty string included, the
    mapping has it under "outputFormat", whatever a stored query carries
    under that key.  The POST builder tests for truth: an empty outputFormat
    is the same call as none. *)
Theorem outputFormat_argument `{CrsApi} {pyint : PyInt} `{PostRequestApi}
    (self : WebFeatureService_) (a : GetFeatureArgs) :
  (forall f request,
      arg_outputFormat a = Some f ->
      get_request self a = Ok request ->
      dict_lookup request "outputFormat" = Some (qstr f))
  /\ getPOSTGetFeatureRequest self (with_outputFormat a (Some ""))
     = getPOSTGetFeatureRequest self (with_outputFormat a None).
Proof.
  split; [|reflexivity].
  intros f request Hf (r1 & r2 & r3 & H1 & H2 & H3 & ->)%get_request_steps.
  rewrite Hf. cbn. apply dict_lookup_set_eq.
Qed.

Lemma outputFormat_argument_witness :
  exists request,
    get_request (example_service "2.0.0")
      (with_outputFormat (default_args "Get") (Some "")) = Ok request
    /\ dict_lookup request "outputFormat" = Some (qstr "")
    /\ getGETGetFeatureRequest (example_service "2.0.0")
         (with_outputFormat (default_args "Get") (Some ""))
       = Ok "http://example.org/wfs?service=WFS&version=2.0.0&request=GetFeature&outputFormat=".
Proof.
  eexists. split; [reflexivity|]. split; [|reflexivity].
  exact (proj1 (outputFormat_argument (example_service "2.0.0")
                  (with_outputFormat (default_args "Get") (Some "")))
           "" _ eq_refl eq_refl).
Defined.

(** X19. A featureid hides the other two selectors completely.  In the GET
    builder the result does not depend on bbox and filter once featureid is
    supplied, so a box that could not be formatted raises nothing; the same
    holds in the POST builder when a feature-type list is given. *)
Theorem featureid_hides_selectors `{CrsApi} {pyint : PyInt} `{PostRequestApi}
    (self : WebFeatureService_) (a : GetFeatureArgs)
    (bbox : option (list pyval)) (filter : option string) :
  truthy_opt truthy_list (arg_featureid a) = true ->
  getGETGetFeatureRequest self (with_bbox (with_filter a filter) bbox)
  = getGETGetFeatureRequest self a
  /\ (truthy_opt truthy_typename (arg_typename a) = true ->
      getPOSTGetFeatureRequest self (with_bbox (with_filter a filter) bbox)
      = getPOSTGetFeatureRequest self a).
Proof.
  intros Hfid. destruct (given_Some _ _ Hfid) as (ids & _ & Hids). split.
  - unfold getGETGetFeatureRequest, get_request, selector_param.
    cbn [arg_featureid arg_bbox arg_filter arg_typename arg_method with_bbox
         with_filter].
    rewrite Hids. reflexivity.
  - intros Htn. destruct (given_Some _ _ Htn) as (t & _ & Ht).
    unfold getPOSTGetFeatureRequest, post_request, post_selector.
    cbn [arg_featureid arg_bbox arg_filter arg_typename arg_method with_bbox
         with_filter].
    rewrite Hids, Ht.
    by destruct (given truthy_str filter), (given truthy_str (arg_filter a)).
Qed.

Lemma featureid_hides_selectors_witness :
  getGETGetFeatureRequest (example_service "2.0.0")
    (with_bbox (with_filter three_selectors_args None) (Some [VInt 1]))
  = getGETGetFeatureRequest (example_service "2.0.0") three_selectors_args
  /\ getPOSTGetFeatureRequest (example_service "2.0.0")
       (with_bbox (with_filter three_selectors_args None) (Some [VInt 1]))
     = getPOSTGetFeatureRequest (example_service "2.0.0") three_selectors_args.
Proof.
  pose proof (featureid_hides_selectors (example_service "2.0.0")
                three_selectors_args (Some [VInt 1]) None eq_refl) as [Hget Hpost].
  split; [exact Hget | exact (Hpost eq_refl)].
Defined.

(** ** When the GET builder returns *)



(** X21. And it fails when one of the three does: with an endpoint, a
    selected box that cannot be formatted raises the exception of
    getBBOXKVP, and, the selector written, a version whose first component
    is no integer raises ValueError as soon as typename or maxfeatures is
    given. *)
Theorem getGET_raises `{CrsApi} {pyint : PyInt} (self : WebFeatureService_) (a : GetFeatureArgs)
    (u : string) :
  endpoint self (arg_method a) = Ok u ->
  (forall bbox e,
      truthy_opt truthy_list (arg_featureid a) = false ->
      arg_bbox a = Some bbox -> bbox <> [] ->
      getBBOXKVP self bbox (arg_typename a) = Raise e ->
      getGETGetFeatureRequest self a = Raise e)
  /\ (forall r1,
        selector_param self a
          [("service", qstr "WFS"); ("version", qstr (version self));
           ("request", qstr "GetFeature")] = Ok r1 ->
        int (before_dot (version self)) = Raise ValueError ->
        truthy_opt truthy_typename (arg_typename a) = true
        \/ truthy_opt truthy_int (arg_maxfeatures a) = true ->
        getGETGetFeatureRequest self a = Raise ValueError).
Proof.
  intros Hend. unfold getGETGetFeatureRequest. rewrite Hend. cbn [res_bind].
  split.
  - intros bbox e Hfid Hbox Hne Hkvp. unfold get_request, selector_param.
    rewrite (given_None _ _ Hfid), Hbox.
    assert (Hgiven : given truthy_list (Some bbox) = Some bbox) by (by destruct bbox).
    by rewrite Hgiven, Hkvp.
  - intros r1 H1 Hint Hneed. unfold get_request. rewrite H1. cbn [res_bind].
    unfold typename_param, maxfeatures_param, major_ge_2. rewrite Hint.
    cbn [res_bind].
    destruct (given truthy_typename (arg_typename a)) as [t|] eqn:Ht; [done|].
    cbn [res_bind].
    destruct Hneed as [Htn | Hmf].
    + destruct (given_Some _ _ Htn) as (t & _ & Ht'). congruence.
    + by destruct (given_Some _ _ Hmf) as (m & _ & ->).
Qed.

Lemma getGET_raises_witness :
  getGETGetFeatureRequest (example_service "1.1.0")
    (with_bbox (default_args "Get") (Some [VInt 1; VInt 2; VInt 3; VInt 4]))
  = Raise TypeError
  /\ getGETGetFeatureRequest (example_service "WFS-2") fifty_roads_args
     = Raise ValueError.
Proof.
  split.
  - exact (proj1 (getGET_raises (example_service "1.1.0")
                    (with_bbox (default_args "Get")
                       (Some [VInt 1; VInt 2; VInt 3; VInt 4]))
                    "http://example.org/wfs" eq_refl)
             [VInt 1; VInt 2; VInt 3; VInt 4] TypeError eq_refl eq_refl
             ltac:(discriminate) eq_refl).
  - exact (proj2 (getGET_raises (example_service "WFS-2") fifty_roads_args
                    "http://example.org/wfs" eq_refl)
             _ eq_refl eq_refl (or_introl eq_refl)).
Defined.

(** ** The POST builder and its document *)

(** X22. A POST call with neither a feature-type list nor a filter never
    returns, whatever else is given (a featureid, say): with an endpoint, at
    version "2.0" or "2.0.0" the document is constructed and the call raises
    UnboundLocalError before any method is called on it, and at any other
    version it raises AttributeError. *)
Theorem post_needs_typename_or_filter `{CrsApi} `{PostRequestApi}
    (self : WebFeatureService_) (a : GetFeatureArgs) (u : string) :
  endpoint self (arg_method a) = Ok u ->
  truthy_opt truthy_typename (arg_typename a) = false ->
  truthy_opt truthy_str (arg_filter a) = false ->
  (version self = "2.0" \/ version self = "2.0.0" ->
     getPOSTGetFeatureRequest self a
     = (events (post_warnings a) ++ [Constructed], Raise UnboundLocalError))
  /\ (version self <> "2.0" -> version self <> "2.0.0" ->
      getPOSTGetFeatureRequest self a
      = (events (post_warnings a), Raise AttributeError)).
Proof.
  intros Hend Htn Hf.
  assert (Hstart : forall evs r,
            post_request self
              (if negb (endswith u "?") then u else drop_last u) a = (evs, r) ->
            getPOSTGetFeatureRequest self a = (events (post_warnings a) ++ evs, r)).
  { intros evs r Hpost. unfold getPOSTGetFeatureRequest. rewrite Hend.
    rewrite post_warnings_eq at 1. by rewrite bind_Ok, bind_lift_Ok, Hpost. }
  split.
  - intros Hv. apply Hstart. unfold post_request, create_post_request.
    rewrite (given_None _ _ Htn), (given_None _ _ Hf).
    assert (Hin : str_in (version self) ["2.0"; "2.0.0"] = true).
    { apply str_in_spec. destruct Hv as [-> | ->]; [left | right; left]. }
    by rewrite Hin.
  - intros Hv1 Hv2. rewrite <- (app_nil_r (events (post_warnings a))).
    apply Hstart. unfold post_request, create_post_request.
    rewrite (given_None _ _ Htn), (given_None _ _ Hf).
    assert (Hin : str_in (version self) ["2.0"; "2.0.0"] = false).
    { unfold str_in. cbn. apply String.eqb_neq in Hv1, Hv2. by rewrite Hv1, Hv2. }
    by rewrite Hin.
Qed.

Lemma post_needs_typename_or_filter_witness :
  getPOSTGetFeatureRequest (example_service "2.0.0") featureid_only_args
  = ([Constructed], Raise UnboundLocalError)
  /\ getPOSTGetFeatureRequest (example_service "1.1.0") featureid_only_args
     = ([], Raise AttributeError).
Proof.
  split.
  - exact (proj1 (post_needs_typename_or_filter (example_service "2.0.0")
                    featureid_only_args "http://example.org/wfs?"
                    eq_refl eq_refl eq_refl) (or_intror eq_refl)).
  - exact (proj2 (post_needs_typename_or_filter (example_service "1.1.0")
                    featureid_only_args "http://example.org/wfs?"
                    eq_refl eq_refl eq_refl)
             ltac:(discriminate) ltac:(discriminate)).
Defined.

Lemma outcome_bind {A B} (m : M A) (f : A -> M B) :
  outcome (bind m f)
  = match outcome m with
    | Ok x => outcome (f x)
    | Raise e => Raise e
    end.
Proof. destruct m as [evs [x|e]]; [by rewrite bind_Ok | done]. Qed.

Lemma bind_ext {A B} (m : M A) (f g : A -> M B) :
  (forall x, f x = g x) -> bind m f = bind m g.
Proof. intros Hfg. destruct m as [evs [x|e]]; [|done]. cbn. by rewrite Hfg. Qed.

Lemma bind_ret {A B} (a : A) (f : A -> M B) : bind (ret a) f = f a.
Proof. apply (bind_lift_Ok a f). Qed.

Lemma bind_emit_ret {A B} (ev : event) (x : A) (f : A -> M B) :
  bind (emit ev;; ret x) f = (emit ev;; f x).
Proof. cbn. by destruct (f x). Qed.

Lemma called_app (l1 l2 : list event) : called (l1 ++ l2) = called l1 ++ called l2.
Proof.
  induction l1 as [|ev l1 IH]; [done|]. destruct ev; cbn; by rewrite ?IH.
Qed.

Lemma called_warnings (evs : list event) : Forall is_warning evs -> called evs = [].
Proof. induction 1 as [|ev evs (msg & args & ->) _ IH]; [done | exact IH]. Qed.

Lemma called_run_calls `{PostRequestApi} (cs : list post_call) (request : PostRequest) :
  called (events (run_calls cs request)) `prefix_of` cs
  /\ (is_Ok (outcome (run_calls cs request)) = true ->
      called (events (run_calls cs request)) = cs).
Proof.
  revert request. induction cs as [|c cs IH]; intros request; cbn [run_calls].
  - split; [apply prefix_nil | done].
  - rewrite events_bind, outcome_bind, events_call, outcome_call.
    destruct (perform c request) as [request'|e]; cbn [app called].
    + destruct (IH request') as [Hprefix Hall]. split.
      * by apply prefix_cons.
      * intros Hok. by rewrite Hall.
    + split; [|done]. apply prefix_cons, prefix_nil.
Qed.

Lemma bind_assoc {A B C} (m : M A) (f : A -> M B) (g : B -> M C) :
  bind (bind m f) g = bind m (fun x => bind (f x) g).
Proof.
  destruct m as [evs [x|e]]; [|done]. cbn.
  destruct (f x) as [evs' [y|e']]; cbn; [|done].
  destruct (g y) as [evs'' r]. by rewrite app_assoc.
Qed.

Lemma run_calls_cons_bind `{PostRequestApi} {B} (c : post_call)
    (cs : list post_call) (request : PostRequest) (k : PostRequest -> M B) :
  bind (run_calls (c :: cs) request) k
  = bind (call c request) (fun request' => bind (run_calls cs request') k).
Proof. cbn [run_calls]. apply bind_assoc. Qed.

Lemma run_calls_nil_bind `{PostRequestApi} {B} (request : PostRequest)
    (k : PostRequest -> M B) :
  bind (run_calls [] request) k = k request.
Proof. apply bind_ret. Qed.

(** The document part of the POST builder is the list of calls, run. *)
Lemma post_request_run `{CrsApi} `{PostRequestApi} (self : WebFeatureService_)
    (base_url : string) (a : GetFeatureArgs) (t : typename_arg) :
  version self = "2.0" \/ version self = "2.0.0" ->
  given truthy_typename (arg_typename a) = Some t ->
  post_request self base_url a
  = (emit Constructed;;
     request <- run_calls (post_calls a (join "," (typename_list t)))
                  PostRequest_2_0_0;
     emit Serialized;;
     data <- lift (to_string request);
     ret (base_url, data)).
Proof.
  intros Hv Ht. unfold post_request, create_post_request, post_selector, post_calls.
  assert (Hin : str_in (version self) ["2.0"; "2.0.0"] = true).
  { apply str_in_spec. destruct Hv as [-> | ->]; [left | right; left]. }
  rewrite Ht, Hin.
  rewrite bind_emit_ret. apply bind_ext; intros _.
  cbn [option_map call_with app].
  rewrite run_calls_cons_bind. apply bind_ext; intros request.
  destruct (given truthy_list (arg_featureid a)),
    (given truthy_list (arg_bbox a)), (given truthy_str (arg_filter a));
    cbn [option_map app option_list option_rect];
    first [rewrite run_calls_cons_bind; apply bind_ext; intros ?
          | rewrite bind_ret].
  all: destruct (given truthy_int (arg_maxfeatures a));
       cbn [option_map app option_list option_rect];
       first [rewrite run_calls_cons_bind; apply bind_ext; intros ?
             | rewrite bind_ret].
  all: destruct (given truthy_str (arg_outputFormat a));
       cbn [option_map app option_list option_rect];
       first [rewrite run_calls_cons_bind; apply bind_ext; intros ?
             | rewrite bind_ret].
  all: destruct (given truthy_int (arg_startindex a));
       cbn [option_map app option_list option_rect];
       first [rewrite run_calls_cons_bind; apply bind_ext; intros ?
             | rewrite bind_ret].
  all: destruct (given truthy_list (arg_propertyname a));
       cbn [option_map app option_list option_rect];
       first [rewrite run_calls_cons_bind; apply bind_ext; intros ?
             | rewrite bind_ret].
  all: destruct (given truthy_list (arg_sortby a));
       cbn [option_map app option_list option_rect];
       first [rewrite run_calls_cons_bind; apply bind_ext; intros ?
             | rewrite bind_ret].
  all: by rewrite run_calls_nil_bind.
Qed.

Lemma post_calls_names (a : GetFeatureArgs) (typenames : string) :
  NoDup (map call_name (post_calls a typenames)).
Proof.
  unfold post_calls.
  destruct (given truthy_list (arg_featureid a)), (given truthy_list (arg_bbox a)),
    (given truthy_str (arg_filter a)), (given truthy_int (arg_maxfeatures a)),
    (given truthy_str (arg_outputFormat a)), (given truthy_int (arg_startindex a)),
    (given truthy_list (arg_propertyname a)), (given truthy_list (arg_sortby a));
    apply (bool_decide_unpack _); by vm_compute.
Qed.

(** X23. At version "2.0" or "2.0.0", with an endpoint and a feature-type
    list, the methods called on the POST document are always a beginning of
    one fixed list: create_query with the comma-joined names, the selector,
    then set_maxfeatures, set_outputformat, set_startindex, set_propertyname
    and set_sortby for the arguments that are supplied.  No method is called
    twice, and a call that returns has made them all. *)
Theorem post_calls_in_order `{CrsApi} `{PostRequestApi}
    (self : WebFeatureService_) (a : GetFeatureArgs) (u : string)
    (t : typename_arg) :
  endpoint self (arg_method a) = Ok u ->
  version self = "2.0" \/ version self = "2.0.0" ->
  given truthy_typename (arg_typename a) = Some t ->
  let made := called (events (getPOSTGetFeatureRequest self a)) in
  made `prefix_of` post_calls a (join "," (typename_list t))
  /\ NoDup (map call_name made)
  /\ (forall url body,
        outcome (getPOSTGetFeatureRequest self a) = Ok (url, body) ->
        made = post_calls a (join "," (typename_list t))).
Proof.
  intros Hend Hv Ht made.
  set (cs := post_calls a (join "," (typename_list t))).
  set (run := run_calls cs PostRequest_2_0_0).
  assert (Hpost : getPOSTGetFeatureRequest self a
            = (post_warnings a;;
               emit Constructed;;
               request <- run;
               emit Serialized;;
               data <- lift (to_string request);
               ret (if negb (endswith u "?") then u else drop_last u, data))).
  { unfold getPOSTGetFeatureRequest. rewrite Hend. apply bind_ext; intros _.
    rewrite bind_lift_Ok. by apply post_request_run. }
  assert (Hmade : made = called (events run)).
  { subst made. rewrite Hpost, !events_bind, post_warnings_outcome.
    cbn [outcome emit snd events fst].
    rewrite !called_app, (called_warnings _ (post_warnings_events a)).
    cbn [called app]. destruct (outcome run) as [request|]; [|by rewrite app_nil_r].
    rewrite events_bind. cbn [outcome emit snd events fst].
    destruct (to_string request); cbn; by rewrite app_nil_r. }
  destruct (called_run_calls cs PostRequest_2_0_0) as [Hprefix Hall].
  fold run in Hprefix, Hall. rewrite Hmade. split; [done|]. split.
  - destruct Hprefix as [rest Hrest].
    pose proof (post_calls_names a (join "," (typename_list t))) as Hnames.
    fold cs in Hnames. rewrite Hrest, map_app in Hnames.
    by apply NoDup_app in Hnames as [Hnodup _].
  - intros url body Hok. apply Hall.
    rewrite Hpost, !outcome_bind, post_warnings_outcome in Hok.
    cbn [outcome emit snd] in Hok. by destruct (outcome run).
Qed.

Lemma post_calls_in_order_witness :
  called (events (getPOSTGetFeatureRequest (example_service "2.0.0") full_post_args))
  = [create_query "roads,rivers"; set_bbox [VInt 1; VInt 2; VInt 3; VInt 4];
     set_maxfeatures 50; set_outputformat "json"; set_startindex 10;
     set_propertyname ["name"]; set_sortby ["name"]].
Proof.
  exact (proj2 (proj2 (post_calls_in_order (example_service "2.0.0")
                         full_post_args "http://example.org/wfs?"
                         (TNames ["roads"; "rivers"]) eq_refl (or_intror eq_refl)
                         eq_refl))
           "http://example.org/wfs"
           "create_query;set_bbox;set_maxfeatures;set_outputformat;set_startindex;set_propertyname;set_sortby"
           eq_refl).
Defined.

(** ** The characters of the query string *)

Lemma chars_append (s t : string) :
  list_ascii_of_string (s +:+ t) = list_ascii_of_string s ++ list_ascii_of_string t.
Proof. induction s as [|c s IH]; [done|]. rewrite append_cons. cbn. by rewrite IH. Qed.

Lemma hex_digit_safe (c : ascii) :
  always_safe (hex_digit (N_of_ascii c / 16)) = true
  /\ always_safe (hex_digit (N_of_ascii c mod 16)) = true.
Proof. destruct c as [[] [] [] [] [] [] [] []]; by vm_compute. Qed.

Lemma safe_query_char (c : ascii) : always_safe c = true -> query_char c = true.
Proof. unfold query_char. by intros ->. Qed.

Lemma quote_plus_chars (s : string) :
  Forall (fun c => query_char c = true) (list_ascii_of_string (quote_plus s)).
Proof.
  induction s as [|c s IH]; cbn [quote_plus]; [constructor|].
  destruct (always_safe c) eqn:Hsafe.
  { cbn. constructor; [by apply safe_query_char | done]. }
  destruct (Ascii.eqb c " ").
  { cbn. constructor; [done | done]. }
  destruct (hex_digit_safe c) as [Hhi Hlo].
  cbn. repeat constructor; [by apply safe_query_char.. | done].
Qed.

Lemma urlencode_item_chars (kv : string * qvalue) :
  Forall (fun item =>
            Forall (fun c => query_char c = true) (list_ascii_of_string item))
    (urlencode_item kv).
Proof.
  assert (Hitem : forall k v,
            Forall (fun c => query_char c = true)
              (list_ascii_of_string (quote_plus k +:+ "=" +:+ quote_plus v))).
  { intros k v. rewrite !chars_append. apply Forall_app. split.
    - apply quote_plus_chars.
    - apply Forall_app. split; [by repeat constructor | apply quote_plus_chars]. }
  unfold urlencode_item. destruct (snd kv) as [v|l].
  - repeat constructor. apply Hitem.
  - induction l as [|elt l IH]; cbn; constructor; [apply Hitem | apply IH].
Qed.

Lemma join_amp_chars (items : list string) :
  Forall (fun item =>
            Forall (fun c => query_char c = true) (list_ascii_of_string item)) items ->
  Forall (fun c => query_char c = true) (list_ascii_of_string (join "&" items)).
Proof.
  unfold join. induction 1 as [|item items Hitem Hitems IH]; cbn; [constructor|].
  destruct items as [|item' items']; [done|].
  rewrite !chars_append. apply Forall_app. split; [done|].
  apply Forall_app. split; [by repeat constructor | exact IH].
Qed.

(** X24. What the GET builder appends to the endpoint consists of unreserved
    characters (ASCII letters and digits, [_ . - ~]) and of [+ % = &] only:
    a space, a comma between joined names, a colon, a slash, a question mark
    or any other byte of an argument arrives as [+] or percent-encoded. *)
Theorem getGET_query_characters `{CrsApi} {pyint : PyInt} (self : WebFeatureService_)
    (a : GetFeatureArgs) (url : string) :
  getGETGetFeatureRequest self a = Ok url ->
  exists base_url query,
    url = base_url +:+ query
    /\ (exists request, get_request self a = Ok request /\ query = urlencode request)
    /\ Forall (fun c => query_char c = true) (list_ascii_of_string query).
Proof.
  intros (base_url & request & Hreq & ->)%getGET_mapping.
  exists base_url, (urlencode request). split; [done|]. split; [by eexists|].
  unfold urlencode. apply join_amp_chars. clear Hreq.
  induction request as [|kv request IH]; cbn; [constructor|].
  apply Forall_app. split; [apply urlencode_item_chars | exact IH].
Qed.

Lemma getGET_query_characters_witness :
  exists base_url query,
    "http://example.org/wfs?service=WFS&version=1.1.0&request=GetFeature&query=%3CFilter+a%3D%271%27%2F%3E+%26+more%3F&typename=ns%3Aroads%2Cns%3Arivers&propertyname=the+name&outputFormat=text%2Fxml%3B+subtype%3Dgml%2F3.1.1"
    = base_url +:+ query
    /\ (exists request,
          get_request (example_service "1.1.0") quoted_args = Ok request
          /\ query = urlencode request)
    /\ Forall (fun c => query_char c = true) (list_ascii_of_string query).
Proof.
  exact (getGET_query_characters (example_service "1.1.0") quoted_args _ eq_refl).
Defined.
